(** * The like/unlike counter of the product catalogue

    A shallow embedding of the like subsystem of the backend:
    - [ProductRepository] (addLike, removeLike, adjustLikes, getById,
      getProductsLikedByUser; getAll, create, update, delete and the
      equality queries),
    - [ProductService] (likeProduct, unlikeProduct, changePoints,
      createProduct, updateProduct, deleteProduct),
    - the product controller (formatProductResponse and the handlers that
      answer the read, like, unlike and liked-listing endpoints, and those
      that create, update and delete a product),
    - the earlier revision of addLike, removeLike and the read handlers that
      the sources also keep ([Legacy]).

    Firestore documents are finite maps from field names to values, the
    products collection is a finite map from document ids to documents, and
    every repository method is a function from the collection (and the server
    time of its write) to a result and the collection afterwards. *)

From stdpp Require Import gmap strings list fin_maps sorting.

(** ** Field values *)

(** A value held in a document field or in a JSON response. Numbers are the
    integer counters of the model ([likes], [number], ...); [VTime] stands for
    both a Firestore [Timestamp] and the [Date] that [toDate()] makes of it;
    [VArr] is a [string[]] such as [likedBy] or [product_images]. *)
#[warnings="-register-all"]
Inductive Value :=
  | VNull
  | VBool (b : bool)
  | VNum (n : Z)
  | VStr (s : string)
  | VTime (t : Z)
  | VArr (l : list string)
  | VObj (fields : list (string * Value)).

(** A number as [parseInt] returns it: an integer or [NaN]. *)
Inductive JsInt :=
  | NaN
  | Int (n : Z).

Abbreviation Obj := (gmap string Value).
Abbreviation Store := (gmap string (gmap string Value)).

(** ** Reading the like fields *)

(** [data.likedBy || []]. The [Product] interface types the field
    [string[] | undefined]; a stored value of any other kind is read as no
    member. *)
Definition likedByOf (data : Obj) : list string :=
  match data !! "likedBy" with
  | Some (VArr l) => l
  | _ => []
  end.

(** [typeof data.likes === 'number' ? data.likes : 0] *)
Definition currentLikes (data : Obj) : Z :=
  match data !! "likes" with
  | Some (VNum n) => n
  | _ => 0%Z
  end.

(** The members of [likedBy] as a set. *)
Definition likedBySet (data : Obj) : gset string :=
  list_to_set (likedByOf data).

(** [updatedAt] when it holds a timestamp. *)
Definition updatedAtOf (data : Obj) : option Z :=
  match data !! "updatedAt" with
  | Some (VTime t) => Some t
  | _ => None
  end.

(** ** Firestore field transforms

    The sentinels of [FieldValue] that the repository passes to [update], with
    the meaning the Firestore documentation gives them. *)
Inductive Transform :=
  | TSet (v : Value)
  | TArrayUnion (x : string)
  | TArrayRemove (x : string)
  | TIncrement (n : Z)
  | TServerTimestamp.

(** [arrayUnion(x)]: appends [x] unless it is there already. *)
Definition arrayUnion (x : string) (l : list string) : list string :=
  if bool_decide (x ∈ l) then l else l ++ [x].

(** [arrayRemove(x)]: removes every occurrence of [x]. *)
Definition arrayRemove (x : string) (l : list string) : list string :=
  filter (λ y, y ≠ x) l.

(** The value a field has after a transform, given the server time [now] and
    the value it had ([None] when the field was missing). A field that is not
    an array counts as the empty array for the array transforms; a field that
    is not a number is overwritten by the operand of [increment]. *)
Definition applyTransform (now : Z) (old : option Value) (t : Transform) : Value :=
  match t with
  | TSet v => v
  | TArrayUnion x =>
      match old with
      | Some (VArr l) => VArr (arrayUnion x l)
      | _ => VArr [x]
      end
  | TArrayRemove x =>
      match old with
      | Some (VArr l) => VArr (arrayRemove x l)
      | _ => VArr []
      end
  | TIncrement n =>
      match old with
      | Some (VNum m) => VNum (m + n)
      | _ => VNum n
      end
  | TServerTimestamp => VTime now
  end.

(** [docRef.update({k1: t1, ...})] on the data of an existing document. Each
    transform reads the field as it was before the update. *)
Definition updateDoc (now : Z) (ups : list (string * Transform)) (data : Obj) : Obj :=
  foldr (λ kt acc, <[kt.1 := applyTransform now (data !! kt.1) kt.2]> acc) data ups.

(** ** Field paths of an update

    [docRef.update(data)] on a plain object reads every key of [data] as a
    dotted field path: the key is validated, split at the dots, and the
    value is written at that path, inside nested maps where the path has
    more than one segment. The client refuses keys that are not field paths
    and updates in which one path is a prefix of another. *)

(** [key.split('.')] *)
Fixpoint splitPath (k : string) : list string :=
  match k with
  | EmptyString => [EmptyString]
  | String c rest =>
      if bool_decide (String c EmptyString = ".") then EmptyString :: splitPath rest
      else match splitPath rest with
           | seg :: more => String c seg :: more
           | [] => [String c EmptyString]
           end
  end.

Definition forbiddenChar (c : Ascii.ascii) : bool :=
  bool_decide (c ∈ String.list_ascii_of_string "*~/[]").

Fixpoint hasForbidden (k : string) : bool :=
  match k with
  | EmptyString => false
  | String c rest => forbiddenChar c || hasForbidden rest
  end.

(** A key is a field path when it is not empty, has no empty segment (no
    leading, trailing or doubled dot) and none of the characters
    [* ~ / [ ]]. *)
Definition validSegment (seg : string) : bool :=
  negb (bool_decide (seg = "")) && negb (hasForbidden seg).

Definition validFieldPath (k : string) : bool :=
  forallb validSegment (splitPath k).

(** No path of the update is a prefix of another one. *)
Fixpoint noConflicts (paths : list (list string)) : bool :=
  match paths with
  | [] => true
  | p :: rest =>
      forallb (λ q, negb (bool_decide (p `prefix_of` q))
                    && negb (bool_decide (q `prefix_of` p))) rest
      && noConflicts rest
  end.

(** Fields of a nested map. *)
Fixpoint assocGet (k : string) (fields : list (string * Value)) : option Value :=
  match fields with
  | [] => None
  | kv :: rest => if bool_decide (kv.1 = k) then Some kv.2 else assocGet k rest
  end.

Fixpoint assocSet (k : string) (v : Value) (fields : list (string * Value))
  : list (string * Value) :=
  match fields with
  | [] => [(k, v)]
  | kv :: rest =>
      if bool_decide (kv.1 = k) then (k, v) :: rest else kv :: assocSet k v rest
  end.

(** The value of a field after [v] is written at [path] below it; a field
    that is not a map is replaced by a map on the way. *)
Fixpoint writeNested (path : list string) (v : Value) (old : option Value) : Value :=
  match path with
  | [] => v
  | k :: rest =>
      let fields := match old with Some (VObj fs) => fs | _ => [] end in
      VObj (assocSet k (writeNested rest v (assocGet k fields)) fields)
  end.

Definition writePath (path : list string) (v : Value) (data : Obj) : Obj :=
  match path with
  | [] => data
  | k :: rest => <[k := writeNested rest v (data !! k)]> data
  end.

(** ** Outcomes of code that may throw *)

Inductive Outcome (A : Type) :=
  | Ok (a : A)
  | Throw (msg : string).
Arguments Ok {A} a.
Arguments Throw {A} msg.

(** ** The liked-products query *)

Module Query.

(** The sort key of [orderBy('updatedAt', 'desc')]: the timestamp of the
    document, with the document id breaking ties in the same direction. *)
Definition timeOf (s : Store) (id : string) : Z :=
  default 0%Z (s !! id ≫= updatedAtOf).

(** [newerFirst s i j]: document [i] comes no later than [j] in the
    result order. *)
Definition newerFirst (s : Store) (i j : string) : Prop :=
  (timeOf s j < timeOf s i)%Z
  ∨ (timeOf s i = timeOf s j ∧ String.leb j i = true).

#[export] Instance newerFirst_dec s i j : Decision (newerFirst s i j).
Proof. unfold newerFirst. apply _. Defined.

(** [where('likedBy', 'array-contains', userId)] together with the
    [orderBy], which leaves out documents without the ordering field. *)
Definition matches (userId : string) (s : Store) (id : string) : bool :=
  match s !! id with
  | Some d => bool_decide (userId ∈ likedByOf d)
              && bool_decide (is_Some (updatedAtOf d))
  | None => false
  end.

Definition ordered (userId : string) (s : Store) : list string :=
  merge_sort (newerFirst s) (filter (λ id, matches userId s id) (elements (dom s))).

(** [startAfter(startDoc)]: what follows the position of [c]. *)
Definition after (s : Store) (c : string) (l : list string) : list string :=
  filter (λ id, ¬ newerFirst s id c) l.

(** The default order of a query without [orderBy]: by document id,
    ascending. *)
Definition idOrder (i j : string) : Prop := String.leb i j = true.

#[export] Instance idOrder_dec i j : Decision (idOrder i j).
Proof. unfold idOrder. apply _. Defined.

Definition byId (s : Store) : list string :=
  merge_sort idOrder (elements (dom s)).

(** [where(field, '==', value)] for a string [value]: the field holds that
    very string. *)
Definition fieldIs (field value : string) (d : Obj) : bool :=
  match d !! field with
  | Some (VStr v) => bool_decide (v = value)
  | _ => false
  end.

Definition whereEq (field value : string) (s : Store) : list string :=
  filter (λ id, from_option (fieldIs field value) false (s !! id)) (byId s).

End Query.

(** ** The repository *)

Module ProductRepository.

(** The object built from a document snapshot:
    [{ id: doc.id, ...data, createdAt: ..., updatedAt: ... }]. The spread
    comes after [id], so a stored [id] field wins; the two dates are the
    stored ones. *)
Definition toProduct (id : string) (data : Obj) : Obj :=
  data ∪ {[ "id" := VStr id ]}.

Definition getById (id : string) (s : Store) : option Obj :=
  toProduct id <$> s !! id.

(** The callback [addLike] hands to [runTransaction]: the collection
    after the commit, or the error thrown inside. *)
Definition addLike_txn (id userId : string) (now : Z) (s : Store) : Outcome Store :=
  match s !! id with
  | None => Throw "Product not found"
  | Some data =>
      let likedBy := likedByOf data in
      if bool_decide (userId ∈ likedBy) then Ok s
      else Ok (<[id := updateDoc now
                   [("likedBy", TArrayUnion userId);
                    ("likes", TIncrement 1);
                    ("updatedAt", TServerTimestamp)] data]> s)
  end.

(** [addLike]: the transaction, then [getById]; the error
    'Product not found' becomes [null], any other is thrown again. *)
Definition addLike (id userId : string) (now : Z) (s : Store)
  : Outcome (option Obj) * Store :=
  match addLike_txn id userId now s with
  | Ok s' => (Ok (getById id s'), s')
  | Throw msg =>
      if bool_decide (msg = "Product not found") then (Ok None, s)
      else (Throw msg, s)
  end.

Definition removeLike_txn (id userId : string) (now : Z) (s : Store) : Outcome Store :=
  match s !! id with
  | None => Throw "Product not found"
  | Some data =>
      let likedBy := likedByOf data in
      let currentLikes := currentLikes data in
      if bool_decide (userId ∈ likedBy) then
        Ok (<[id := updateDoc now
                [("likedBy", TArrayRemove userId);
                 ("likes", TSet (VNum (Z.max 0 (currentLikes - 1))));
                 ("updatedAt", TServerTimestamp)] data]> s)
      else
        Ok (<[id := updateDoc now
                [("likedBy", TArrayRemove userId);
                 ("updatedAt", TServerTimestamp)] data]> s)
  end.

Definition removeLike (id userId : string) (now : Z) (s : Store)
  : Outcome (option Obj) * Store :=
  match removeLike_txn id userId now s with
  | Ok s' => (Ok (getById id s'), s')
  | Throw msg =>
      if bool_decide (msg = "Product not found") then (Ok None, s)
      else (Throw msg, s)
  end.

(** [adjustLikes]: a plain read followed by an update, no transaction. *)
Definition adjustLikes (id : string) (delta : Z) (now : Z) (s : Store)
  : option Obj * Store :=
  match s !! id with
  | None => (None, s)
  | Some data =>
      let currentLikes := currentLikes data in
      let newLikes := Z.max 0 (currentLikes + delta) in
      let s' := <[id := updateDoc now
                    [("likes", TSet (VNum newLikes));
                     ("updatedAt", TServerTimestamp)] data]> s in
      (getById id s', s')
  end.

(** [update(id, product)]: [docRef.update({ ...product, updatedAt:
    serverTimestamp() })] on an existing document, then the product is read
    back. The keys are field paths; the client throws, before anything is
    written, when a key is not one or when two of them conflict. *)
Definition update (id : string) (product : Obj) (now : Z) (s : Store)
  : Outcome (option Obj) * Store :=
  match s !! id with
  | None => (Ok None, s)
  | Some data =>
      let writes := map_to_list (<["updatedAt" := VTime now]> product) in
      if forallb (λ kv, validFieldPath kv.1) writes
         && noConflicts ((λ kv, splitPath kv.1) <$> writes)
      then
        let data' := foldr (λ kv d, writePath (splitPath kv.1) kv.2 d) data writes in
        let s' := <[id := data']> s in
        (Ok (getById id s'), s')
      else (Throw "Value for argument dataOrField is not a valid update map", s)
  end.

(** [getAll]: every document of the collection as a product. *)
Definition getAll (s : Store) : list Obj :=
  (λ kd, toProduct kd.1 kd.2) <$> map_to_list s.

(** [.limit(n)] as the query is run: a negative limit is refused, and a
    limit of 0 is left out of the request, so that every document is
    returned. *)
Definition limited (n : Z) (ids : list string) : Outcome (list string) :=
  if (n <? 0)%Z then Throw "limit is negative"
  else if (n =? 0)%Z then Ok ids
  else Ok (take (Z.to_nat n) ids).

(** [getProductsLikedByUser(userId, limit, startAfter)]. [limit(NaN)] throws
    as the query is built. A cursor is used when it is a non-empty id of an
    existing document; Firestore rejects a cursor document that lacks the
    ordering field. *)
Definition getProductsLikedByUser (userId : string) (limit : JsInt)
    (startAfter : option string) (s : Store) : Outcome (list Obj) :=
  match limit with
  | NaN => Throw "Value for argument limit is not a valid integer"
  | Int n =>
      let query := Query.ordered userId s in
      let run (ids : list string) : Outcome (list Obj) :=
        match limited n ids with
        | Ok page => Ok (omap (λ id, getById id s) page)
        | Throw msg => Throw msg
        end in
      match startAfter with
      | Some c =>
          if bool_decide (c = "") then run query
          else match s !! c with
               | Some startDoc =>
                   match updatedAtOf startDoc with
                   | Some _ => run (Query.after s c query)
                   | None => Throw "Field updatedAt is missing in the provided DocumentSnapshot"
                   end
               | None => run query
               end
      | None => run query
      end
  end.

(** [create(product)]: Firestore's [add] stores the product under a new id
    [newId] of its own choosing, with both dates stamped by the server at
    [now]; the method returns [{ id, ...product, createdAt: new Date(),
    updatedAt: new Date() }], where [date] is the clock of the process. *)
Definition create (newId : string) (product : Obj) (now date : Z) (s : Store)
  : Obj * Store :=
  let stored := <["updatedAt" := VTime now]> (<["createdAt" := VTime now]> product) in
  (<["updatedAt" := VTime date]>
     (<["createdAt" := VTime date]> (product ∪ {[ "id" := VStr newId ]})),
   <[newId := stored]> s).

(** [delete(id)] (the plain name is the map operation here). *)
Definition delete_ (id : string) (s : Store) : bool * Store :=
  match s !! id with
  | None => (false, s)
  | Some _ => (true, delete id s)
  end.

Definition getProductsByCategory (categoryId : string) (s : Store) : list Obj :=
  omap (λ id, getById id s) (Query.whereEq "categoryId" categoryId s).

Definition getByUserId (userId : string) (s : Store) : list Obj :=
  omap (λ id, getById id s) (Query.whereEq "userId" userId s).

Definition getProductsByCharity (charityId : string) (s : Store) : list Obj :=
  omap (λ id, getById id s) (Query.whereEq "charityId" charityId s).

End ProductRepository.

(** ** The service *)

Module ProductService.
Import ProductRepository.

Definition getAllProducts (s : Store) : list Obj := getAll s.

Definition getProductById (id : string) (s : Store) : option Obj := getById id s.

(** [updateProduct]: existence check, validation of the category and charity
    the update refers to ([referencesOk] says whether [validateReferences]
    lets the update through; the two collections are outside this
    development), then [update]. *)
Definition updateProduct (referencesOk : bool) (id : string) (data : Obj)
    (now : Z) (s : Store) : Outcome (option Obj) * Store :=
  match getById id s with
  | None => (Ok None, s)
  | Some existingProduct =>
      if referencesOk then update id data now s
      else (Throw "Category not found", s)
  end.

(** [changePoints]: existence check, then [adjustLikes]. *)
Definition changePoints (id : string) (delta : Z) (now : Z) (s : Store)
  : option Obj * Store :=
  match getById id s with
  | None => (None, s)
  | Some _ => adjustLikes id delta now s
  end.

Definition likeProduct (productId userId : string) (now : Z) (s : Store)
  : Outcome (option Obj) * Store :=
  addLike productId userId now s.

Definition unlikeProduct (productId userId : string) (now : Z) (s : Store)
  : Outcome (option Obj) * Store :=
  removeLike productId userId now s.

Definition getProductsLikedByUser (userId : string) (limit : JsInt)
    (startAfter : option string) (s : Store) : Outcome (list Obj) :=
  ProductRepository.getProductsLikedByUser userId limit startAfter s.

(** [data.likes || 0] *)
Definition likesOr0 (data : Obj) : Value :=
  match data !! "likes" with
  | None | Some VNull | Some (VNum 0) | Some (VBool false) | Some (VStr "") => VNum 0
  | Some v => v
  end.

(** [createProduct]: validation of the category and the charity
    ([referencesOk], as for [updateProduct]), then
    [{ ...data, likes: data.likes || 0, createdAt: new Date(),
       updatedAt: new Date() }] is handed to [create]; [date0] is the clock
    read by the service, [date] the one read by the repository. *)
Definition createProduct (referencesOk : bool) (newId : string) (data : Obj)
    (now date0 date : Z) (s : Store) : Outcome Obj * Store :=
  if referencesOk then
    let product :=
      <["updatedAt" := VTime date0]>
        (<["createdAt" := VTime date0]> (<["likes" := likesOr0 data]> data)) in
    let r := create newId product now date s in (Ok r.1, r.2)
  else (Throw "Category not found", s).

Definition deleteProduct (id : string) (s : Store) : bool * Store :=
  delete_ id s.

Definition getProductsByUserId (userId : string) (s : Store) : list Obj :=
  getByUserId userId s.

(** [getProductsByCategory] and [getProductsByCharity] first look the
    category (the charity) up; [found] is the outcome of that lookup. *)
Definition getProductsByCategory (found : bool) (categoryId : string) (s : Store)
  : Outcome (list Obj) :=
  if found then Ok (ProductRepository.getProductsByCategory categoryId s)
  else Throw "Category not found".

Definition getProductsByCharity (found : bool) (charityId : string) (s : Store)
  : Outcome (list Obj) :=
  if found then Ok (ProductRepository.getProductsByCharity charityId s)
  else Throw "Charity not found".

Section details.
(** The category and the charity record that the service looks up for a
    product ([None] when the lookup gives nothing); the two collections
    are outside this development. *)
Variables categoryFor charityFor : Obj → option Value.

(** [{ ...product, category: c || undefined, charity: ch || undefined }] *)
Definition attach (k : string) (v : option Value) (o : Obj) : Obj :=
  match v with
  | Some x => <[k := x]> o
  | None => delete k o
  end.

Definition withDetails (product : Obj) : Obj :=
  attach "charity" (charityFor product)
    (attach "category" (categoryFor product) product).

Definition getProductWithDetails (id : string) (s : Store) : option Obj :=
  withDetails <$> getById id s.

Definition getAllProductsWithDetails (s : Store) : list Obj :=
  withDetails <$> getAll s.
End details.

End ProductService.

(** ** The controller *)

Module productController.
Import ProductRepository.

(** What a handler passes to [ResponseHandler] as [data]: nothing, one
    object, or an array of objects. *)
Inductive Payload :=
  | PNull
  | PObj (o : Obj)
  | PList (l : list Obj).

Record Response := { status : nat; message : string; data : Payload }.

(** Modelled from the spec: [ResponseHandler] (shared/utils/responseHandler)
    is not among the sources. Section 6 of the specification and the
    endpoint documentation fix what matters here: [success] answers 200 and
    carries the payload; [badRequest] 400, [unauthorized] 401, [forbidden]
    403, [notFound] 404 and [internalServerError] 500 carry none. *)
Definition success (d : Payload) (msg : string) : Response :=
  {| status := 200; message := msg; data := d |}.
Definition unauthorized (msg : string) : Response :=
  {| status := 401; message := msg; data := PNull |}.
Definition notFound (msg : string) : Response :=
  {| status := 404; message := msg; data := PNull |}.
Definition internalServerError (msg : string) : Response :=
  {| status := 500; message := msg; data := PNull |}.
Definition badRequest (msg : string) : Response :=
  {| status := 400; message := msg; data := PNull |}.
Definition forbidden (msg : string) : Response :=
  {| status := 403; message := msg; data := PNull |}.

(** [userId ? ... : ...] on an optional string: the empty string is falsy. *)
Definition truthy (userId : option string) : option string :=
  match userId with
  | Some u => if bool_decide (u = "") then None else Some u
  | None => None
  end.

(** [product.likes ?? 0] *)
Definition likesOrZero (product : Obj) : Value :=
  match product !! "likes" with
  | None | Some VNull => VNum 0
  | Some v => v
  end.

(** [product.likes || 0] *)
Definition likesOrZero_falsy (product : Obj) : Value :=
  match product !! "likes" with
  | None | Some VNull | Some (VNum 0) | Some (VBool false) | Some (VStr "") => VNum 0
  | Some v => v
  end.

(** [userId ? (likedBy?.includes(userId) ?? false) : false] *)
Definition isLikedBy (likedBy : option Value) (userId : option string) : bool :=
  match truthy userId with
  | Some u =>
      match likedBy with
      | Some (VArr l) => bool_decide (u ∈ l)
      | _ => false
      end
  | None => false
  end.

(** [const { likedBy, ...publicProduct } = product;
     return { ...publicProduct, likeCount: ..., isLikedByUser: ... }] *)
Definition formatProductResponse (product : Obj) (userId : option string) : Obj :=
  let likedBy := product !! "likedBy" in
  let publicProduct := delete "likedBy" product in
  <["isLikedByUser" := VBool (isLikedBy likedBy userId)]>
    (<["likeCount" := likesOrZero product]> publicProduct).

(** In the handlers below [uid] is [req.user?.uid]: [None] when the request
    carries no user or the user has no uid. *)

Definition getAllProducts (uid : option string) (s : Store) : Response :=
  let products := ProductService.getAllProducts s in
  success (PList ((λ product, formatProductResponse product uid) <$> products))
          "Products fetched successfully".

Definition getProductById (uid : option string) (id : string) (s : Store) : Response :=
  match ProductService.getProductById id s with
  | None => notFound "Product not found"
  | Some product =>
      success (PObj (formatProductResponse product uid)) "Product fetched successfully"
  end.

Section details.
Variables categoryFor charityFor : Obj → option Value.

Definition getProductWithDetails (uid : option string) (id : string) (s : Store)
  : Response :=
  match ProductService.getProductWithDetails categoryFor charityFor id s with
  | None => notFound "Product not found"
  | Some product =>
      success (PObj (formatProductResponse product uid))
              "Product with details fetched successfully"
  end.

Definition getAllProductsWithDetails (uid : option string) (s : Store) : Response :=
  let products := ProductService.getAllProductsWithDetails categoryFor charityFor s in
  success (PList ((λ product, formatProductResponse product uid) <$> products))
          "Products with details fetched successfully".
End details.

(** A handler that writes returns its response and the collection
    afterwards. *)
Definition likeProduct (uid : option string) (id : string) (now : Z) (s : Store)
  : Response * Store :=
  match truthy uid with
  | None => (unauthorized "Authentication required", s)
  | Some u =>
      match ProductService.likeProduct id u now s with
      | (Throw msg, s') => (internalServerError "Failed to like product", s')
      | (Ok None, s') => (notFound "Product not found", s')
      | (Ok (Some product), s') =>
          (success (PObj {[ "likeCount" := likesOrZero_falsy product;
                            "isLikedByUser" := VBool true ]})
                   "Product liked successfully", s')
      end
  end.

Definition unlikeProduct (uid : option string) (id : string) (now : Z) (s : Store)
  : Response * Store :=
  match truthy uid with
  | None => (unauthorized "Authentication required", s)
  | Some u =>
      match ProductService.unlikeProduct id u now s with
      | (Throw msg, s') => (internalServerError "Failed to unlike product", s')
      | (Ok None, s') => (notFound "Product not found", s')
      | (Ok (Some product), s') =>
          (success (PObj {[ "likeCount" := likesOrZero_falsy product;
                            "isLikedByUser" := VBool false ]})
                   "Product unliked successfully", s')
      end
  end.

(** [updateProduct], for the authenticated user [uid]: the owner's update is
    answered with the product as the service returns it. *)
Definition updateProduct (referencesOk : bool) (uid : string) (id : string)
    (updateData : Obj) (now : Z) (s : Store) : Response * Store :=
  match ProductService.getProductById id s with
  | None => (notFound "Product not found", s)
  | Some existingProduct =>
      let isOwner := match existingProduct !! "userId" with
                     | Some (VStr owner) => bool_decide (owner = uid)
                     | _ => false
                     end in
      if isOwner then
        match ProductService.updateProduct referencesOk id updateData now s with
        | (Throw msg, s') =>
            if bool_decide (msg = "Category not found" ∨ msg = "Charity not found")
            then (badRequest msg, s')
            else (internalServerError "Failed to update product", s')
        | (Ok None, s') => (success PNull "Product updated successfully", s')
        | (Ok (Some product), s') =>
            (success (PObj product) "Product updated successfully", s')
        end
      else (forbidden "Access denied", s)
  end.

(** [limit] is [parseInt(req.query.limit, 10)] when the parameter is given
    (a non-empty string), [None] when it is not; without it the page size is
    20. *)
Definition getLikedProducts (uid : option string) (limit : option JsInt)
    (startAfter : option string) (s : Store) : Response :=
  match truthy uid with
  | None => unauthorized "Authentication required"
  | Some u =>
      let limit := default (Int 20) limit in
      match ProductService.getProductsLikedByUser u limit startAfter s with
      | Throw msg => internalServerError "Failed to fetch liked products"
      | Ok products =>
          success (PList ((λ product, formatProductResponse product (Some u)) <$> products))
                  "Liked products fetched successfully"
      end
  end.

(** Modelled from the spec: [ResponseHandler.created] is not among the
    sources; the route documentation answers a creation with 201 and the
    product. *)
Definition created (d : Payload) (msg : string) : Response :=
  {| status := 201; message := msg; data := d |}.

(** [existingProduct.userId !== user.uid], negated. *)
Definition ownedBy (product : Obj) (uid : string) : bool :=
  match product !! "userId" with
  | Some (VStr owner) => bool_decide (owner = uid)
  | _ => false
  end.

(** [createProduct], for the authenticated user [uid]:
    [productData = { ...req.body, userId: user.uid }]. *)
Definition createProduct (referencesOk : bool) (uid : string) (newId : string)
    (body : Obj) (now date0 date : Z) (s : Store) : Response * Store :=
  let productData := <["userId" := VStr uid]> body in
  match ProductService.createProduct referencesOk newId productData now date0 date s with
  | (Ok product, s') => (created (PObj product) "Product created successfully", s')
  | (Throw msg, s') =>
      if bool_decide (msg = "Category not found" ∨ msg = "Charity not found")
      then (badRequest msg, s')
      else (internalServerError "Failed to create product", s')
  end.

(** [deleteProduct], for the authenticated user [uid]. *)
Definition deleteProduct (uid : string) (id : string) (s : Store) : Response * Store :=
  match ProductService.getProductById id s with
  | None => (notFound "Product not found", s)
  | Some existingProduct =>
      if ownedBy existingProduct uid then
        let deleted := ProductService.deleteProduct id s in
        (success PNull "Product deleted successfully", deleted.2)
      else (forbidden "Access denied", s)
  end.

(** The objects a response serialises. *)
Definition objects (r : Response) : list Obj :=
  match data r with
  | PNull => []
  | PObj o => [o]
  | PList l => l
  end.

(** Some object of the response has a field named [k]. *)
Definition exposes (k : string) (r : Response) : Prop :=
  ∃ o, o ∈ objects r ∧ is_Some (o !! k).

(** A pagination cursor handed back to the caller would travel in the
    payload next to the products, under the name the specification gives
    it. An array payload and an absent payload have no place for it. *)
Definition nextCursor (r : Response) : option Value :=
  match data r with
  | PObj o => o !! "nextCursor"
  | _ => None
  end.

End productController.

(** ** Sequences of operations *)

(** The operations of the service that write the like fields, each with the
    server time of its write. *)
Inductive Op :=
  | Like (id userId : string)
  | Unlike (id userId : string)
  | ChangePoints (id : string) (delta : Z).

Definition step (s : Store) (o : Op * Z) : Store :=
  match o with
  | (Like id u, now) => (ProductService.likeProduct id u now s).2
  | (Unlike id u, now) => (ProductService.unlikeProduct id u now s).2
  | (ChangePoints id delta, now) => (ProductService.changePoints id delta now s).2
  end.

Definition run (ops : list (Op * Z)) (s : Store) : Store := foldl step s ops.

(** One like of product [id] for each user of [uts], in the order of the
    list, each at its own server time. *)
Definition likesBy (id : string) (uts : list (string * Z)) : list (Op * Z) :=
  (λ ut, (Like id ut.1, ut.2)) <$> uts.

(** The product an operation addresses. *)
Definition target (o : Op * Z) : string :=
  match o.1 with
  | Like id _ | Unlike id _ | ChangePoints id _ => id
  end.

Definition isLikeOrUnlike (o : Op * Z) : Prop :=
  match o.1 with
  | ChangePoints _ _ => False
  | _ => True
  end.

(** The counter agrees with the membership set. *)
Definition consistent (data : Obj) : Prop :=
  currentLikes data = Z.of_nat (size (likedBySet data)).

(** The counter is not below zero. *)
Definition nonNegative (data : Obj) : Prop := (0 ≤ currentLikes data)%Z.

(** A collection whose products were just created: no like yet. *)
Definition freshProduct (data : Obj) : Prop :=
  likedByOf data = [] ∧ currentLikes data = 0%Z.

(** ** The documents the repository writes

    Names for the data of a product after each of the updates issued by
    [addLike], [removeLike] and [adjustLikes]. *)

(** The three fields written by a like that takes effect. *)
Definition liked (now : Z) (u : string) (d : Obj) : Obj :=
  updateDoc now [("likedBy", TArrayUnion u); ("likes", TIncrement 1);
                 ("updatedAt", TServerTimestamp)] d.

(** The fields written by an unlike, for a member and for a non-member. *)
Definition unliked_member (now : Z) (u : string) (d : Obj) : Obj :=
  updateDoc now [("likedBy", TArrayRemove u);
                 ("likes", TSet (VNum (Z.max 0 (currentLikes d - 1))));
                 ("updatedAt", TServerTimestamp)] d.

Definition unliked_other (now : Z) (u : string) (d : Obj) : Obj :=
  updateDoc now [("likedBy", TArrayRemove u); ("updatedAt", TServerTimestamp)] d.

Definition adjusted (now : Z) (delta : Z) (d : Obj) : Obj :=
  updateDoc now [("likes", TSet (VNum (Z.max 0 (currentLikes d + delta))));
                 ("updatedAt", TServerTimestamp)] d.

(** ** The earlier revision of the like methods

    The sources keep, next to the transactional repository above, an earlier
    revision of [addLike] and [removeLike] and of the read handlers (the
    service already calls the three-argument [getProductsLikedByUser], which
    only the later revision has). It is embedded here to record where the two
    differ. *)

Module Legacy.
Import ProductRepository.

(** [addLike] without a membership check: the update is issued whenever the
    document exists. *)
Definition addLike (id userId : string) (now : Z) (s : Store) : option Obj * Store :=
  match s !! id with
  | None => (None, s)
  | Some data =>
      let s' := <[id := updateDoc now
                    [("likedBy", TArrayUnion userId);
                     ("likes", TIncrement 1);
                     ("updatedAt", TServerTimestamp)] data]> s in
      (getById id s', s')
  end.

(** [removeLike] with [FieldValue.increment(-1)] for a member. *)
Definition removeLike (id userId : string) (now : Z) (s : Store) : option Obj * Store :=
  match s !! id with
  | None => (None, s)
  | Some data =>
      let likedBy := likedByOf data in
      if bool_decide (userId ∈ likedBy) then
        let s' := <[id := updateDoc now
                      [("likedBy", TArrayRemove userId);
                       ("likes", TIncrement (-1));
                       ("updatedAt", TServerTimestamp)] data]> s in
        (getById id s', s')
      else
        let s' := <[id := updateDoc now
                      [("likedBy", TArrayRemove userId);
                       ("updatedAt", TServerTimestamp)] data]> s in
        (getById id s', s')
  end.

(** The object the earlier read handlers send:
    [{ ...product, likeCount: product.likes || 0,
       isLikedByUser: user && product.likedBy ? product.likedBy.includes(user.uid) : false }] *)
Definition withLikeStatus (product : Obj) (uid : option string) : Obj :=
  <["isLikedByUser" :=
      VBool (match uid, product !! "likedBy" with
             | Some u, Some (VArr l) => bool_decide (u ∈ l)
             | _, _ => false
             end)]>
    (<["likeCount" := productController.likesOrZero_falsy product]> product).

End Legacy.

(** ** Sample data *)

Module Demo.

(** A product that nobody likes yet. *)
Definition fresh (name : string) : Obj :=
  {[ "name" := VStr name; "likes" := VNum 0; "likedBy" := VArr [];
     "updatedAt" := VTime 1 ]}.

(** A product liked by [u2], counter 1. *)
Definition coat : Obj :=
  {[ "name" := VStr "coat"; "likes" := VNum 1; "likedBy" := VArr ["u2"];
     "updatedAt" := VTime 5 ]}.

(** A record whose counter is below zero and disagrees with its empty set. *)
Definition broken : Obj :=
  {[ "name" := VStr "scarf"; "likes" := VNum (-1); "likedBy" := VArr [];
     "updatedAt" := VTime 1 ]}.

(** A record that lists [u1] while its counter is 0. *)
Definition stale : Obj :=
  {[ "name" := VStr "hat"; "likes" := VNum 0; "likedBy" := VArr ["u1"];
     "updatedAt" := VTime 1 ]}.

(** [coat] as owned by [u1]. *)
Definition ownedCoat : Obj := <["userId" := VStr "u1"]> coat.

Definition shop : Store :=
  {[ "a" := fresh "apron"; "b" := fresh "boots"; "c" := fresh "cap";
     "d" := fresh "dress" ]}.

(** [shop] after [u1] has liked a, b and c at times 2, 3 and 4. *)
Definition likedShop : Store :=
  run [(Like "a" "u1", 2%Z); (Like "b" "u1", 3%Z); (Like "c" "u1", 4%Z)] shop.

End Demo.

(** * Properties *)

(** ** Documents after an update *)

Section updates.
Import ProductRepository.
Implicit Types (d data : Obj) (s : Store) (u userId id k : string) (now : Z).

Lemma updateDoc_lookup_other now ups d k :
  k ∉ ups.*1 → updateDoc now ups d !! k = d !! k.
Proof.
  unfold updateDoc. induction ups as [|[k' t] ups IH]; simpl; [done|].
  intros Hk. apply not_elem_of_cons in Hk as [Hne Hk].
  rewrite lookup_insert_ne by done. auto.
Qed.

Lemma toProduct_lookup_ne id d k : k ≠ "id" → toProduct id d !! k = d !! k.
Proof.
  intros Hk. unfold toProduct. rewrite lookup_union.
  rewrite lookup_singleton_ne by done. by destruct (d !! k).
Qed.

Lemma likedByOf_toProduct id d : likedByOf (toProduct id d) = likedByOf d.
Proof. unfold likedByOf. by rewrite toProduct_lookup_ne. Qed.

Lemma currentLikes_toProduct id d : currentLikes (toProduct id d) = currentLikes d.
Proof. unfold currentLikes. by rewrite toProduct_lookup_ne. Qed.

Lemma arrayUnion_new u (l : list string) : u ∉ l → arrayUnion u l = l ++ [u].
Proof. intros H. unfold arrayUnion. by rewrite bool_decide_false. Qed.

Lemma arrayRemove_absent u (l : list string) : u ∉ l → arrayRemove u l = l.
Proof.
  unfold arrayRemove. induction l as [|x l IH]; [done|].
  intros [Hx Hl]%not_elem_of_cons.
  rewrite filter_cons_True by done. by rewrite IH.
Qed.

Lemma elem_of_arrayRemove u x (l : list string) :
  x ∈ arrayRemove u l ↔ x ∈ l ∧ x ≠ u.
Proof. unfold arrayRemove. rewrite list_elem_of_filter. tauto. Qed.

Lemma likedByOf_liked now u d : u ∉ likedByOf d → likedByOf (liked now u d) = likedByOf d ++ [u].
Proof.
  unfold liked, updateDoc, likedByOf; simpl. rewrite lookup_insert_eq.
  destruct (d !! "likedBy") as [[]|]; simpl; try reflexivity.
  apply arrayUnion_new.
Qed.

Lemma currentLikes_liked now u d : currentLikes (liked now u d) = (currentLikes d + 1)%Z.
Proof.
  unfold liked, updateDoc, currentLikes; simpl.
  rewrite lookup_insert_ne by done. rewrite lookup_insert_eq.
  by destruct (d !! "likes") as [[]|].
Qed.

Lemma updatedAtOf_liked now u d : updatedAtOf (liked now u d) = Some now.
Proof.
  unfold liked, updateDoc, updatedAtOf; simpl.
  do 2 (rewrite lookup_insert_ne by done). by rewrite lookup_insert_eq.
Qed.

Lemma likedByOf_unliked_member now u d :
  likedByOf (unliked_member now u d) = arrayRemove u (likedByOf d).
Proof.
  unfold unliked_member, updateDoc, likedByOf; simpl. rewrite lookup_insert_eq.
  by destruct (d !! "likedBy") as [[]|].
Qed.

Lemma currentLikes_unliked_member now u d :
  currentLikes (unliked_member now u d) = Z.max 0 (currentLikes d - 1).
Proof.
  unfold unliked_member, updateDoc; simpl. unfold currentLikes at 1.
  rewrite lookup_insert_ne by done. by rewrite lookup_insert_eq.
Qed.

Lemma likedByOf_unliked_other now u d :
  likedByOf (unliked_other now u d) = arrayRemove u (likedByOf d).
Proof.
  unfold unliked_other, updateDoc, likedByOf; simpl. rewrite lookup_insert_eq.
  by destruct (d !! "likedBy") as [[]|].
Qed.

Lemma lookup_unliked_other now u d k :
  k ≠ "likedBy" → k ≠ "updatedAt" → unliked_other now u d !! k = d !! k.
Proof.
  intros H1 H2. apply updateDoc_lookup_other. simpl.
  rewrite !not_elem_of_cons. split_and!; [done..|]. apply not_elem_of_nil.
Qed.

Lemma currentLikes_unliked_other now u d :
  currentLikes (unliked_other now u d) = currentLikes d.
Proof. unfold currentLikes. by rewrite lookup_unliked_other. Qed.

Lemma updatedAtOf_unliked_other now u d : updatedAtOf (unliked_other now u d) = Some now.
Proof.
  unfold unliked_other, updateDoc, updatedAtOf; simpl.
  rewrite lookup_insert_ne by done. by rewrite lookup_insert_eq.
Qed.

Lemma likedByOf_adjusted now delta d : likedByOf (adjusted now delta d) = likedByOf d.
Proof.
  unfold likedByOf, adjusted. rewrite updateDoc_lookup_other; [done|]. simpl.
  rewrite !not_elem_of_cons. split_and!; [done..|]. apply not_elem_of_nil.
Qed.

Lemma currentLikes_adjusted now delta d :
  currentLikes (adjusted now delta d) = Z.max 0 (currentLikes d + delta).
Proof.
  unfold adjusted, updateDoc; simpl. unfold currentLikes at 1.
  by rewrite lookup_insert_eq.
Qed.

(** ** The repository methods, case by case *)

Lemma addLike_absent id u now s :
  s !! id = None → addLike id u now s = (Ok None, s).
Proof. intros H. unfold addLike, addLike_txn. by rewrite H. Qed.

Lemma addLike_member id u now s d :
  s !! id = Some d → u ∈ likedByOf d →
  addLike id u now s = (Ok (Some (toProduct id d)), s).
Proof.
  intros H Hu. unfold addLike, addLike_txn, getById. rewrite H; simpl.
  rewrite bool_decide_true by done. by rewrite H.
Qed.

Lemma addLike_new id u now s d :
  s !! id = Some d → u ∉ likedByOf d →
  addLike id u now s
  = (Ok (Some (toProduct id (liked now u d))), <[id := liked now u d]> s).
Proof.
  intros H Hu. unfold addLike, addLike_txn, getById. rewrite H; simpl.
  rewrite bool_decide_false by done. by rewrite lookup_insert_eq.
Qed.

Lemma removeLike_absent id u now s :
  s !! id = None → removeLike id u now s = (Ok None, s).
Proof. intros H. unfold removeLike, removeLike_txn. by rewrite H. Qed.

Lemma removeLike_member id u now s d :
  s !! id = Some d → u ∈ likedByOf d →
  removeLike id u now s
  = (Ok (Some (toProduct id (unliked_member now u d))),
     <[id := unliked_member now u d]> s).
Proof.
  intros H Hu. unfold removeLike, removeLike_txn, getById. rewrite H; simpl.
  rewrite bool_decide_true by done. by rewrite lookup_insert_eq.
Qed.

Lemma removeLike_other id u now s d :
  s !! id = Some d → u ∉ likedByOf d →
  removeLike id u now s
  = (Ok (Some (toProduct id (unliked_other now u d))),
     <[id := unliked_other now u d]> s).
Proof.
  intros H Hu. unfold removeLike, removeLike_txn, getById. rewrite H; simpl.
  rewrite bool_decide_false by done. by rewrite lookup_insert_eq.
Qed.

Lemma adjustLikes_present id delta now s d :
  s !! id = Some d →
  adjustLikes id delta now s
  = (Some (toProduct id (adjusted now delta d)), <[id := adjusted now delta d]> s).
Proof.
  intros H. unfold adjustLikes, getById. rewrite H; simpl.
  by rewrite lookup_insert_eq.
Qed.

End updates.

(** ** Like and unlike of one user *)

Section like_unlike.
Import ProductRepository.
Implicit Types (d data : Obj) (s : Store) (u userId id k : string) (now : Z).

(** After [addLike] on an existing product the user is a member. *)
Lemma addLike_then_member id u now s d :
  s !! id = Some d →
  ∃ d', (addLike id u now s).2 !! id = Some d' ∧ u ∈ likedByOf d'
        ∧ (addLike id u now s).1 = Ok (Some (toProduct id d')).
Proof.
  intros H. destruct (decide (u ∈ likedByOf d)) as [Hu|Hu].
  - rewrite (addLike_member _ _ _ _ _ H Hu). by exists d.
  - rewrite (addLike_new _ _ _ _ _ H Hu). exists (liked now u d); simpl.
    rewrite lookup_insert_eq, likedByOf_liked by done.
    split_and!; [done| |done]. apply elem_of_app. right. by apply list_elem_of_singleton.
Qed.

Lemma addLike_twice id u now now' s :
  addLike id u now' (addLike id u now s).2 = addLike id u now s.
Proof.
  destruct (s !! id) as [d|] eqn:H.
  - destruct (addLike_then_member id u now s d H) as (d' & Hs & Hu & Hr).
    rewrite (addLike_member _ _ _ _ _ Hs Hu).
    destruct (addLike id u now s) as [r s1]; simpl in *. by rewrite Hr.
  - rewrite (addLike_absent _ _ _ _ H); simpl. by apply addLike_absent.
Qed.

(** C1. [addLike] is idempotent: when the user is already in [likedBy] the
    call writes nothing (the collection afterwards is the collection
    before, so membership, counter and every other field are as they
    were) and returns the current product; hence a second like of the same
    product by the same user returns what the first returned and leaves the
    collection as the first left it, in the repository and in the like
    endpoint alike. *)
Theorem addLike_idempotent (s : Store) (id userId : string) (now now' : Z) :
  (∀ data, s !! id = Some data → userId ∈ likedByOf data →
     addLike id userId now s = (Ok (getById id s), s)
     ∧ getById id s = Some (toProduct id data))
  ∧ addLike id userId now' (addLike id userId now s).2 = addLike id userId now s
  ∧ productController.likeProduct (Some userId) id now'
      (productController.likeProduct (Some userId) id now s).2
    = productController.likeProduct (Some userId) id now s.
Proof.
  split_and!.
  - intros data H Hu. unfold getById. rewrite H; simpl.
    split; [|done]. by apply addLike_member.
  - apply addLike_twice.
  - unfold productController.likeProduct, ProductService.likeProduct.
    destruct (productController.truthy (Some userId)) as [u|]; [|done].
    pose proof (addLike_twice id u now now' s) as Htwice.
    destruct (addLike id u now s) as [[[p|]|msg] s1] eqn:H1; simpl in *;
      by rewrite Htwice.
Qed.

(** C5. On a product id that is not in the collection [addLike] and
    [removeLike] return [null] (their 'Product not found' case) and leave
    the collection as it was, and the like and unlike endpoints answer 404
    and leave the collection as it was. *)
Theorem like_unlike_not_found (s : Store) (id userId : string) (now : Z) :
  s !! id = None →
  userId ≠ "" →
  addLike id userId now s = (Ok None, s)
  ∧ removeLike id userId now s = (Ok None, s)
  ∧ addLike_txn id userId now s = Throw "Product not found"
  ∧ removeLike_txn id userId now s = Throw "Product not found"
  ∧ (∃ r, productController.likeProduct (Some userId) id now s = (r, s)
          ∧ productController.status r = 404)
  ∧ (∃ r, productController.unlikeProduct (Some userId) id now s = (r, s)
          ∧ productController.status r = 404).
Proof.
  intros H Hu.
  assert (productController.truthy (Some userId) = Some userId) as Ht.
  { unfold productController.truthy. by rewrite bool_decide_false. }
  split_and!.
  - by apply addLike_absent.
  - by apply removeLike_absent.
  - unfold addLike_txn. by rewrite H.
  - unfold removeLike_txn. by rewrite H.
  - unfold productController.likeProduct, ProductService.likeProduct.
    rewrite Ht, addLike_absent by done. eauto.
  - unfold productController.unlikeProduct, ProductService.unlikeProduct.
    rewrite Ht, removeLike_absent by done. eauto.
Qed.

(** C10. A [removeLike] on an existing product succeeds and leaves the
    user out of [likedBy], in the stored document and in the returned
    product; when the user was listed while the counter was 0, the entry
    goes and the counter is still 0. *)
Theorem removeLike_clears_membership (s : Store) (id userId : string) (data : Obj) (now : Z) :
  s !! id = Some data →
  ∃ data',
    removeLike id userId now s = (Ok (Some (toProduct id data')), <[id := data']> s)
    ∧ (userId ∉ likedByOf data')
    ∧ (userId ∉ likedByOf (toProduct id data'))
    ∧ (userId ∈ likedByOf data → currentLikes data = 0%Z →
       currentLikes data' = 0%Z ∧ data' !! "likes" = Some (VNum 0)).
Proof.
  intros H. destruct (decide (userId ∈ likedByOf data)) as [Hu|Hu].
  - exists (unliked_member now userId data).
    rewrite likedByOf_toProduct, likedByOf_unliked_member.
    split_and!.
    + by apply removeLike_member.
    + rewrite elem_of_arrayRemove. tauto.
    + rewrite elem_of_arrayRemove. tauto.
    + intros _ H0. rewrite currentLikes_unliked_member, H0. split; [done|].
      unfold unliked_member, updateDoc; simpl.
      rewrite lookup_insert_ne by done. rewrite lookup_insert_eq. by rewrite H0.
  - exists (unliked_other now userId data).
    rewrite likedByOf_toProduct, likedByOf_unliked_other.
    split_and!.
    + by apply removeLike_other.
    + rewrite elem_of_arrayRemove. tauto.
    + rewrite elem_of_arrayRemove. tauto.
    + done.
Qed.

(** C6, as the code has it. Unliking a product the user is not a member of
    succeeds and still writes the document: [likedBy] is written back with
    the same members (the empty array when the field was missing),
    [updatedAt] becomes the server time of the call, and the counter and
    every field other than these two are as before; the other products are
    untouched. *)
Theorem removeLike_non_member (s : Store) (id userId : string) (data : Obj) (now : Z) :
  s !! id = Some data →
  userId ∉ likedByOf data →
  ∃ data',
    removeLike id userId now s = (Ok (Some (toProduct id data')), <[id := data']> s)
    ∧ data' !! "likedBy" = Some (VArr (likedByOf data))
    ∧ data' !! "updatedAt" = Some (VTime now)
    ∧ currentLikes data' = currentLikes data
    ∧ (∀ k, k ≠ "likedBy" → k ≠ "updatedAt" → data' !! k = data !! k)
    ∧ (∀ id', id' ≠ id → (removeLike id userId now s).2 !! id' = s !! id').
Proof.
  intros H Hu. exists (unliked_other now userId data).
  rewrite (removeLike_other _ _ _ _ _ H Hu). split_and!.
  - done.
  - unfold unliked_other, updateDoc; simpl. rewrite lookup_insert_eq.
    unfold likedByOf in *. destruct (data !! "likedBy") as [[]|]; simpl; try done.
    by rewrite arrayRemove_absent.
  - unfold unliked_other, updateDoc; simpl.
    rewrite lookup_insert_ne by done. by rewrite lookup_insert_eq.
  - apply currentLikes_unliked_other.
  - intros k. apply lookup_unliked_other.
  - intros id' Hne; simpl. by rewrite lookup_insert_ne.
Qed.

End like_unlike.

(** ** Invariants along sequences of operations *)

Section invariants.
Import ProductRepository.
Implicit Types (d data : Obj) (s : Store) (u userId id k : string) (now : Z).

Lemma likedBySet_liked now u d :
  u ∉ likedByOf d → likedBySet (liked now u d) = likedBySet d ∪ {[u]}.
Proof.
  intros Hu. unfold likedBySet. rewrite likedByOf_liked by done.
  rewrite list_to_set_app_L. simpl. by rewrite (right_id_L ∅ (∪)).
Qed.

Lemma likedBySet_arrayRemove u (l : list string) :
  list_to_set (arrayRemove u l) = (list_to_set l : gset string) ∖ {[u]}.
Proof.
  apply set_eq. intros x.
  rewrite elem_of_difference, !elem_of_list_to_set, elem_of_arrayRemove.
  rewrite elem_of_singleton. tauto.
Qed.

Lemma consistent_liked now u d : u ∉ likedByOf d → consistent d → consistent (liked now u d).
Proof.
  unfold consistent. intros Hu Hc.
  rewrite currentLikes_liked, likedBySet_liked, Hc by done.
  rewrite size_union, size_singleton; [lia|].
  apply disjoint_singleton_r. unfold likedBySet. by rewrite elem_of_list_to_set.
Qed.

Lemma consistent_unliked_member now u d :
  u ∈ likedByOf d → consistent d → consistent (unliked_member now u d).
Proof.
  unfold consistent. intros Hu Hc.
  rewrite currentLikes_unliked_member, Hc.
  unfold likedBySet. rewrite likedByOf_unliked_member, likedBySet_arrayRemove.
  assert (u ∈ (list_to_set (likedByOf d) : gset string)) as Hin
    by by rewrite elem_of_list_to_set.
  assert ({[u]} ⊆ (list_to_set (likedByOf d) : gset string)) as Hsub
    by by apply singleton_subseteq_l.
  pose proof (size_difference _ _ Hsub) as Hsz. rewrite size_singleton in Hsz.
  pose proof (subseteq_size _ _ Hsub) as Hle. rewrite size_singleton in Hle.
  rewrite Hsz. lia.
Qed.

Lemma consistent_unliked_other now u d :
  u ∉ likedByOf d → consistent d → consistent (unliked_other now u d).
Proof.
  unfold consistent, likedBySet. intros Hu Hc.
  by rewrite currentLikes_unliked_other, likedByOf_unliked_other, arrayRemove_absent.
Qed.

(** The collection after each operation: at most the addressed document
    changes. *)
Lemma step_Like s id u now :
  step s (Like id u, now) = s
  ∨ ∃ d, s !! id = Some d ∧ (u ∉ likedByOf d)
         ∧ step s (Like id u, now) = <[id := liked now u d]> s.
Proof.
  unfold step, ProductService.likeProduct.
  destruct (s !! id) as [d|] eqn:H.
  - destruct (decide (u ∈ likedByOf d)) as [Hu|Hu].
    + left. by rewrite (addLike_member _ _ _ _ _ H Hu).
    + right. exists d. by rewrite (addLike_new _ _ _ _ _ H Hu).
  - left. by rewrite addLike_absent.
Qed.

Lemma step_Unlike s id u now :
  step s (Unlike id u, now) = s
  ∨ ∃ d, s !! id = Some d
         ∧ ((u ∈ likedByOf d ∧ step s (Unlike id u, now) = <[id := unliked_member now u d]> s)
            ∨ ((u ∉ likedByOf d) ∧ step s (Unlike id u, now) = <[id := unliked_other now u d]> s)).
Proof.
  unfold step, ProductService.unlikeProduct.
  destruct (s !! id) as [d|] eqn:H.
  - right. exists d. split; [done|].
    destruct (decide (u ∈ likedByOf d)) as [Hu|Hu].
    + left. by rewrite (removeLike_member _ _ _ _ _ H Hu).
    + right. by rewrite (removeLike_other _ _ _ _ _ H Hu).
  - left. by rewrite removeLike_absent.
Qed.

Lemma step_ChangePoints s id delta now :
  step s (ChangePoints id delta, now) = s
  ∨ ∃ d, s !! id = Some d
         ∧ step s (ChangePoints id delta, now) = <[id := adjusted now delta d]> s.
Proof.
  unfold step, ProductService.changePoints, getById.
  destruct (s !! id) as [d|] eqn:H; simpl; [|by left].
  right. exists d. by rewrite (adjustLikes_present _ _ _ _ _ H).
Qed.

Lemma step_consistent s o :
  isLikeOrUnlike o →
  map_Forall (λ _ d, consistent d) s →
  map_Forall (λ _ d, consistent d) (step s o).
Proof.
  destruct o as [[id u|id u|id delta] now]; intros Hop Hs; [| |done].
  - destruct (step_Like s id u now) as [->|(d & Hd & Hu & ->)]; [done|].
    apply map_Forall_insert_2; [|done].
    apply consistent_liked; [done|]. by apply (Hs id).
  - destruct (step_Unlike s id u now) as [->|(d & Hd & [[Hu ->]|[Hu ->]])]; [done|..];
      (apply map_Forall_insert_2; [|done]).
    + apply consistent_unliked_member; [done|]. by apply (Hs id).
    + apply consistent_unliked_other; [done|]. by apply (Hs id).
Qed.

(** C2, as the code has it. From a collection in which every counter equals
    the number of members of [likedBy] (a fresh product, with no member and
    counter 0, is the first case), every sequence of like and unlike
    operations leads to a collection with the same property. Operations that
    write the counter alone ([changePoints], that is [adjustLikes]) are left
    out: they do not keep it. *)
Theorem likes_match_members (s : Store) (ops : list (Op * Z)) :
  map_Forall (λ _ d, consistent d) s →
  Forall isLikeOrUnlike ops →
  map_Forall (λ _ d, consistent d) (run ops s).
Proof.
  unfold run. revert s. induction ops as [|o ops IH]; intros s Hs Hops; [done|].
  apply Forall_cons in Hops as [Ho Hops]. simpl.
  apply IH; [|done]. by apply step_consistent.
Qed.

Lemma freshProduct_consistent d : freshProduct d → consistent d.
Proof.
  intros [Hl Hc]. unfold consistent, likedBySet. rewrite Hl, Hc.
  by rewrite list_to_set_nil, size_empty.
Qed.

Lemma step_nonNegative s o :
  map_Forall (λ _ d, nonNegative d) s → map_Forall (λ _ d, nonNegative d) (step s o).
Proof.
  unfold nonNegative.
  destruct o as [[id u|id u|id delta] now]; intros Hs.
  - destruct (step_Like s id u now) as [->|(d & Hd & Hu & ->)]; [done|].
    apply map_Forall_insert_2; [|done].
    rewrite currentLikes_liked. specialize (Hs id d Hd). simpl in Hs. lia.
  - destruct (step_Unlike s id u now) as [->|(d & Hd & [[Hu ->]|[Hu ->]])]; [done|..];
      (apply map_Forall_insert_2; [|done]).
    + rewrite currentLikes_unliked_member. lia.
    + rewrite currentLikes_unliked_other. by apply (Hs id).
  - destruct (step_ChangePoints s id delta now) as [->|(d & Hd & ->)]; [done|].
    apply map_Forall_insert_2; [|done].
    rewrite currentLikes_adjusted. lia.
Qed.

(** C3, as the code has it. From a collection whose counters are all
    non-negative, whether or not they agree with the membership sets, every
    sequence of like, unlike and changePoints operations leads to counters
    that are non-negative; and from any prior state at all, an unlike that
    decrements (the user was a member) and an [adjustLikes] leave a counter
    that is non-negative, because both write [Math.max(0, ...)]. *)
Theorem likes_never_negative (s : Store) :
  (map_Forall (λ _ d, nonNegative d) s →
   ∀ ops, map_Forall (λ _ d, nonNegative d) (run ops s))
  ∧ (∀ id userId now data, s !! id = Some data → userId ∈ likedByOf data →
       ∃ data', removeLike id userId now s
                = (Ok (Some (toProduct id data')), <[id := data']> s)
                ∧ nonNegative data' ∧ nonNegative (toProduct id data'))
  ∧ (∀ id delta now data, s !! id = Some data →
       ∃ data', adjustLikes id delta now s
                = (Some (toProduct id data'), <[id := data']> s)
                ∧ nonNegative data' ∧ nonNegative (toProduct id data')).
Proof.
  split_and!.
  - intros Hs ops. unfold run. revert s Hs.
    induction ops as [|o ops IH]; intros s Hs; [done|]. simpl.
    apply IH. by apply step_nonNegative.
  - intros id u now d Hd Hu. exists (unliked_member now u d).
    unfold nonNegative. rewrite currentLikes_toProduct, currentLikes_unliked_member.
    split_and!; [by apply removeLike_member|lia..].
  - intros id delta now d Hd. exists (adjusted now delta d).
    unfold nonNegative. rewrite currentLikes_toProduct, currentLikes_adjusted.
    split_and!; [by apply adjustLikes_present|lia..].
Qed.

End invariants.

(** ** The public view of a product *)

Section projection.
Import ProductRepository productController.
Implicit Types (product o : Obj) (s : Store) (uid userId : option string).

Lemma formatProductResponse_likedBy product userId :
  formatProductResponse product userId !! "likedBy" = None.
Proof.
  unfold formatProductResponse.
  do 2 (rewrite lookup_insert_ne by done). apply lookup_delete_eq.
Qed.

Lemma formatProductResponse_likeCount product userId :
  formatProductResponse product userId !! "likeCount" = Some (likesOrZero product).
Proof.
  unfold formatProductResponse.
  rewrite lookup_insert_ne by done. apply lookup_insert_eq.
Qed.

Lemma formatProductResponse_isLikedByUser product userId :
  formatProductResponse product userId !! "isLikedByUser"
  = Some (VBool (isLikedBy (product !! "likedBy") userId)).
Proof. unfold formatProductResponse. apply lookup_insert_eq. Qed.

(** Every other field of the product is passed through. *)
Lemma formatProductResponse_other product userId k :
  k ≠ "likedBy" → k ≠ "likeCount" → k ≠ "isLikedByUser" →
  formatProductResponse product userId !! k = product !! k.
Proof.
  intros H1 H2 H3. unfold formatProductResponse.
  do 2 (rewrite lookup_insert_ne by done). by apply lookup_delete_ne.
Qed.

Lemma isLikedBy_member product u :
  u ≠ "" → isLikedBy (product !! "likedBy") (Some u) = true ↔ u ∈ likedByOf product.
Proof.
  intros Hu. unfold isLikedBy, truthy, likedByOf.
  rewrite bool_decide_false by done.
  destruct (product !! "likedBy") as [[]|]; simpl;
    rewrite ?bool_decide_eq_true; try done;
    (split; [done|by intros ?%not_elem_of_nil]).
Qed.

(** C7. In the view that [formatProductResponse] builds, [likeCount] is the
    counter field of the product, and 0 when that field is missing (or
    null); [isLikedByUser] is false when there is no viewer id (none at all,
    or the empty string, which the code treats alike), and for a viewer id it
    is true exactly when the id is in [likedBy], so false when [likedBy] is
    missing. *)
Theorem formatProductResponse_projection (product : Obj) (userId : option string) :
  (product !! "likes" = None →
     formatProductResponse product userId !! "likeCount" = Some (VNum 0))
  ∧ (product !! "likes" = Some VNull →
     formatProductResponse product userId !! "likeCount" = Some (VNum 0))
  ∧ (∀ v, product !! "likes" = Some v → v ≠ VNull →
     formatProductResponse product userId !! "likeCount" = Some v)
  ∧ ∃ b, formatProductResponse product userId !! "isLikedByUser" = Some (VBool b)
         ∧ (userId = None → b = false)
         ∧ (userId = Some "" → b = false)
         ∧ (∀ u, userId = Some u → u ≠ "" → (b = true ↔ u ∈ likedByOf product))
         ∧ (product !! "likedBy" = None → b = false).
Proof.
  rewrite formatProductResponse_likeCount. unfold likesOrZero. split_and!.
  - by intros ->.
  - by intros ->.
  - intros v -> Hv. by destruct v.
  - exists (isLikedBy (product !! "likedBy") userId). split_and!.
    + apply formatProductResponse_isLikedByUser.
    + by intros ->.
    + by intros ->.
    + intros u -> Hu. by apply isLikedBy_member.
    + intros ->. unfold isLikedBy. by destruct (truthy userId).
Qed.

Lemma not_exposes_map (f : Obj → Obj) (l : list Obj) k msg :
  (∀ o, f o !! k = None) → ¬ exposes k (success (PList (f <$> l)) msg).
Proof.
  intros Hf (o & Ho & Hk). unfold objects in Ho; simpl in Ho.
  apply list_elem_of_fmap in Ho as (p & -> & _).
  rewrite Hf in Hk. by destruct Hk.
Qed.

Lemma not_exposes_obj (o : Obj) k msg :
  o !! k = None → ¬ exposes k (success (PObj o) msg).
Proof.
  intros Ho (o' & Hin & Hk). unfold objects in Hin; simpl in Hin.
  apply list_elem_of_singleton in Hin as ->. rewrite Ho in Hk. by destruct Hk.
Qed.

Lemma not_exposes_null k st msg :
  ¬ exposes k {| status := st; message := msg; data := PNull |}.
Proof. intros (o & Ho & _). unfold objects in Ho; simpl in Ho. by apply not_elem_of_nil in Ho. Qed.

(** X23. The handlers that project their answer. Whatever the collection
    holds and whoever asks, no object in the response of a product read (one
    product, all products, the two with-details variants), of the
    liked-products listing, of like or of unlike has a [likedBy] field. The
    update endpoint is not among them. *)
Theorem likedBy_never_serialised
    (s : Store) (uid : option string) (id : string) (now : Z)
    (limit : option JsInt) (startAfter : option string)
    (categoryFor charityFor : Obj → option Value) :
  ¬ exposes "likedBy" (getProductById uid id s)
  ∧ ¬ exposes "likedBy" (getAllProducts uid s)
  ∧ ¬ exposes "likedBy" (getProductWithDetails categoryFor charityFor uid id s)
  ∧ ¬ exposes "likedBy" (getAllProductsWithDetails categoryFor charityFor uid s)
  ∧ ¬ exposes "likedBy" (getLikedProducts uid limit startAfter s)
  ∧ ¬ exposes "likedBy" (likeProduct uid id now s).1
  ∧ ¬ exposes "likedBy" (unlikeProduct uid id now s).1.
Proof.
  split_and!.
  - unfold getProductById. destruct (ProductService.getProductById id s).
    + apply not_exposes_obj, formatProductResponse_likedBy.
    + apply not_exposes_null.
  - unfold getAllProducts. apply not_exposes_map.
    intros o. apply formatProductResponse_likedBy.
  - unfold getProductWithDetails.
    destruct (ProductService.getProductWithDetails categoryFor charityFor id s).
    + apply not_exposes_obj, formatProductResponse_likedBy.
    + apply not_exposes_null.
  - unfold getAllProductsWithDetails. apply not_exposes_map.
    intros o. apply formatProductResponse_likedBy.
  - unfold getLikedProducts. destruct (truthy uid) as [u|]; [|apply not_exposes_null].
    destruct (ProductService.getProductsLikedByUser u (default (Int 20) limit) startAfter s).
    + apply not_exposes_map. intros o. apply formatProductResponse_likedBy.
    + apply not_exposes_null.
  - unfold likeProduct. destruct (truthy uid) as [u|]; [|apply not_exposes_null].
    destruct (ProductService.likeProduct id u now s) as [[[p|]|msg] s'];
      [|apply not_exposes_null..].
    by apply not_exposes_obj.
  - unfold unlikeProduct. destruct (truthy uid) as [u|]; [|apply not_exposes_null].
    destruct (ProductService.unlikeProduct id u now s) as [[[p|]|msg] s'];
      [|apply not_exposes_null..].
    by apply not_exposes_obj.
Qed.

End projection.

(** ** The order of document ids *)

Section string_order.

Lemma ascii_compare_refl (a : Ascii.ascii) : Ascii.compare a a = Eq.
Proof. unfold Ascii.compare. apply N.compare_refl. Qed.

Lemma ascii_compare_lt_trans (a b c : Ascii.ascii) :
  Ascii.compare a b = Lt → Ascii.compare b c = Lt → Ascii.compare a c = Lt.
Proof.
  unfold Ascii.compare. rewrite !N.compare_lt_iff. apply N.lt_trans.
Qed.

Lemma string_compare_refl (x : string) : String.compare x x = Eq.
Proof. induction x as [|a x IH]; simpl; [done|]. by rewrite ascii_compare_refl. Qed.

Lemma string_compare_lt_trans (x y z : string) :
  String.compare x y = Lt → String.compare y z = Lt → String.compare x z = Lt.
Proof.
  revert y z. induction x as [|a x IH]; intros [|b y] [|c z]; simpl; try done.
  destruct (Ascii.compare a b) eqn:Hab; [|..|done];
    (destruct (Ascii.compare b c) eqn:Hbc; [|..|done]).
  - apply Ascii.compare_eq_iff in Hab as ->. apply Ascii.compare_eq_iff in Hbc as ->.
    rewrite ascii_compare_refl. apply IH.
  - apply Ascii.compare_eq_iff in Hab as ->. by rewrite Hbc.
  - apply Ascii.compare_eq_iff in Hbc as <-. by rewrite Hab.
  - by rewrite (ascii_compare_lt_trans _ _ _ Hab Hbc).
Qed.

Lemma string_leb_refl (x : string) : String.leb x x = true.
Proof. unfold String.leb. by rewrite string_compare_refl. Qed.

Lemma string_leb_trans (x y z : string) :
  String.leb x y = true → String.leb y z = true → String.leb x z = true.
Proof.
  unfold String.leb.
  destruct (String.compare x y) eqn:Hxy; [| |done];
    (destruct (String.compare y z) eqn:Hyz; [| |done]); intros _ _.
  - apply String.compare_eq_iff in Hxy as ->. by rewrite Hyz.
  - apply String.compare_eq_iff in Hxy as ->. by rewrite Hyz.
  - apply String.compare_eq_iff in Hyz as <-. by rewrite Hxy.
  - by rewrite (string_compare_lt_trans _ _ _ Hxy Hyz).
Qed.

End string_order.

(** ** The order of the liked-products query *)

Section order.
Implicit Types (s : Store).

#[local] Instance newerFirst_total s : Total (Query.newerFirst s).
Proof.
  intros i j. unfold Query.newerFirst.
  destruct (Z.lt_trichotomy (Query.timeOf s i) (Query.timeOf s j)) as [H|[H|H]].
  - right. by left.
  - destruct (String.leb_total i j) as [Hl|Hl].
    + right. right. by split.
    + left. right. by split.
  - left. by left.
Qed.

#[local] Instance newerFirst_trans s : Transitive (Query.newerFirst s).
Proof.
  intros i j k. unfold Query.newerFirst.
  intros [H1|[H1 L1]] [H2|[H2 L2]].
  - left. lia.
  - left. lia.
  - left. lia.
  - right. split; [lia|]. by apply (string_leb_trans _ j).
Qed.

#[local] Instance newerFirst_antisym s : AntiSymm (=) (Query.newerFirst s).
Proof.
  intros i j. unfold Query.newerFirst.
  intros [H1|[H1 L1]] [H2|[H2 L2]]; try lia.
  by apply String.leb_antisym.
Qed.
End order.

(** ** Pages of liked products *)

Section listing.
Import ProductRepository productController.
Implicit Types (s : Store) (u id A B C : string).

#[local] Existing Instances newerFirst_total newerFirst_trans newerFirst_antisym.

Lemma newerFirst_refl s id : Query.newerFirst s id id.
Proof. right. split; [done|]. apply string_leb_refl. Qed.

Lemma newerFirst_later s i j : (Query.timeOf s j < Query.timeOf s i)%Z → Query.newerFirst s i j.
Proof. by left. Qed.

Lemma not_newerFirst_earlier s i j :
  (Query.timeOf s i < Query.timeOf s j)%Z → ¬ Query.newerFirst s i j.
Proof. intros H [H'|[H' _]]; lia. Qed.

Lemma matches_in_dom u s id : Query.matches u s id = true → id ∈ dom s.
Proof.
  unfold Query.matches. intros H. apply elem_of_dom.
  by destruct (s !! id).
Qed.

Lemma ordered_three u s A B C :
  (∀ id, Query.matches u s id = true ↔ id ∈ [C; B; A]) →
  NoDup [C; B; A] →
  (Query.timeOf s A < Query.timeOf s B < Query.timeOf s C)%Z →
  Query.ordered u s = [C; B; A].
Proof.
  intros Hm Hnd Ht. unfold Query.ordered.
  apply (Sorted_unique (Query.newerFirst s)).
  - apply Sorted_merge_sort, _.
  - repeat first [apply Sorted_nil | apply Sorted_cons | apply HdRel_nil | apply HdRel_cons];
      apply newerFirst_later; lia.
  - rewrite merge_sort_Permutation. apply NoDup_Permutation; [|done|].
    + apply NoDup_filter, NoDup_elements.
    + intros id. rewrite list_elem_of_filter, elem_of_elements, <- Hm.
      rewrite Is_true_true. split; [tauto|].
      intros H. split; [done|]. by apply (matches_in_dom u).
Qed.

Lemma after_three s A B C :
  (Query.timeOf s A < Query.timeOf s B < Query.timeOf s C)%Z →
  Query.after s B [C; B; A] = [A].
Proof.
  intros Ht. unfold Query.after.
  rewrite filter_cons_False by (intros H; apply H, newerFirst_later; lia).
  rewrite filter_cons_False by (intros H; apply H, newerFirst_refl).
  rewrite filter_cons_True by (apply not_newerFirst_earlier; lia).
  done.
Qed.

Lemma matches_liked u s id now d :
  s !! id = Some (liked now u d) → u ∉ likedByOf d → Query.matches u s id = true.
Proof.
  intros H Hu. unfold Query.matches. rewrite H.
  rewrite likedByOf_liked, updatedAtOf_liked by done.
  rewrite !bool_decide_true; [done|by eexists|].
  apply elem_of_app. right. by apply list_elem_of_singleton.
Qed.

Lemma matches_not_liked u s id :
  (∀ d, s !! id = Some d → u ∉ likedByOf d) → Query.matches u s id = false.
Proof.
  intros H. unfold Query.matches. destruct (s !! id) as [d|]; [|done].
  rewrite (bool_decide_false (u ∈ likedByOf d)); [done|]. by apply H.
Qed.

Lemma timeOf_liked s id now u d :
  s !! id = Some (liked now u d) → Query.timeOf s id = now.
Proof. intros H. unfold Query.timeOf. rewrite H; simpl. by rewrite updatedAtOf_liked. Qed.

(** The collection after the user has liked [A], [B] and [C] in turn. *)
Lemma run_three_likes (s0 : Store) u A B C (dA dB dC : Obj) (t1 t2 t3 : Z) :
  NoDup [A; B; C] →
  s0 !! A = Some dA → s0 !! B = Some dB → s0 !! C = Some dC →
  map_Forall (λ _ d, u ∉ likedByOf d) s0 →
  run [(Like A u, t1); (Like B u, t2); (Like C u, t3)] s0
  = <[C := liked t3 u dC]> (<[B := liked t2 u dB]> (<[A := liked t1 u dA]> s0)).
Proof.
  intros Hnd HA HB HC Hno.
  apply NoDup_cons in Hnd as [HAn Hnd]. apply NoDup_cons in Hnd as [HBn _].
  apply not_elem_of_cons in HAn as [HAB HAn]. apply not_elem_of_cons in HAn as [HAC _].
  apply not_elem_of_cons in HBn as [HBC _].
  unfold run; simpl. unfold ProductService.likeProduct.
  rewrite (addLike_new A u t1 s0 dA) by (done || by apply (Hno A)). simpl.
  rewrite (addLike_new B u t2 _ dB); [|by rewrite lookup_insert_ne|by apply (Hno B)]. simpl.
  rewrite (addLike_new C u t3 _ dC); [done| |by apply (Hno C)].
  by rewrite !lookup_insert_ne.
Qed.
(** C8, as the code has it. Take a collection in which the user likes
    nothing, and let the user like three different products [A], [B] and [C]
    at increasing server times. The listing with limit 2 then returns [C]
    and [B], most recent first, as a bare array of product views: neither
    the repository nor the endpoint returns a cursor. The listing with limit
    2 and [startAfter] set to the id of [B], the last product of the first
    page, returns [A] alone, again without a cursor. *)
Theorem liked_listing_pages (s0 : Store) (u A B C : string) (dA dB dC : Obj) (t1 t2 t3 : Z) :
  u ≠ "" → B ≠ "" →
  NoDup [A; B; C] →
  s0 !! A = Some dA → s0 !! B = Some dB → s0 !! C = Some dC →
  map_Forall (λ _ d, u ∉ likedByOf d) s0 →
  (t1 < t2 < t3)%Z →
  let s := run [(Like A u, t1); (Like B u, t2); (Like C u, t3)] s0 in
  let pA := toProduct A (liked t1 u dA) in
  let pB := toProduct B (liked t2 u dB) in
  let pC := toProduct C (liked t3 u dC) in
  getProductsLikedByUser u (Int 2) None s = Ok [pC; pB]
  ∧ getProductsLikedByUser u (Int 2) (Some B) s = Ok [pA]
  ∧ getLikedProducts (Some u) (Some (Int 2)) None s
    = success (PList [formatProductResponse pC (Some u); formatProductResponse pB (Some u)])
              "Liked products fetched successfully"
  ∧ getLikedProducts (Some u) (Some (Int 2)) (Some B) s
    = success (PList [formatProductResponse pA (Some u)])
              "Liked products fetched successfully"
  ∧ nextCursor (getLikedProducts (Some u) (Some (Int 2)) None s) = None
  ∧ nextCursor (getLikedProducts (Some u) (Some (Int 2)) (Some B) s) = None
  ∧ (dB !! "id" = None → formatProductResponse pB (Some u) !! "id" = Some (VStr B)).
Proof.
  intros Hu HB0 Hnd HA HB HC Hno Ht s pA pB pC.
  assert (s = <[C := liked t3 u dC]> (<[B := liked t2 u dB]> (<[A := liked t1 u dA]> s0)))
    as Hs by by apply run_three_likes.
  pose proof Hnd as Hnd'.
  apply NoDup_cons in Hnd' as [HAn Hnd']. apply NoDup_cons in Hnd' as [HBn _].
  apply not_elem_of_cons in HAn as [HAB HAn]. apply not_elem_of_cons in HAn as [HAC _].
  apply not_elem_of_cons in HBn as [HBC _].
  assert (s !! C = Some (liked t3 u dC)) as HsC by (rewrite Hs; apply lookup_insert_eq).
  assert (s !! B = Some (liked t2 u dB)) as HsB.
  { rewrite Hs, lookup_insert_ne by done. apply lookup_insert_eq. }
  assert (s !! A = Some (liked t1 u dA)) as HsA.
  { rewrite Hs. do 2 (rewrite lookup_insert_ne by done). apply lookup_insert_eq. }
  assert (∀ id, id ∉ [C; B; A] → s !! id = s0 !! id) as Hother.
  { intros id Hid. rewrite !not_elem_of_cons in Hid. destruct Hid as (? & ? & ? & _).
    rewrite Hs. by rewrite !lookup_insert_ne. }
  assert (Query.ordered u s = [C; B; A]) as Hord.
  { apply ordered_three.
    - intros id. destruct (decide (id ∈ [C; B; A])) as [Hin|Hin].
      + split; [done|intros _].
        rewrite !elem_of_cons in Hin. destruct Hin as [->|[->|[->|Hin]]].
        * eapply matches_liked; [done|]. by apply (Hno C).
        * eapply matches_liked; [done|]. by apply (Hno B).
        * eapply matches_liked; [done|]. by apply (Hno A).
        * by apply not_elem_of_nil in Hin.
      + rewrite matches_not_liked; [done|].
        intros d. rewrite Hother by done. apply (Hno id).
    - assert ([C; B; A] ≡ₚ [A; B; C]) as -> by (by rewrite <- (reverse_Permutation [A; B; C])).
      done.
    - rewrite (timeOf_liked s A t1 u dA), (timeOf_liked s B t2 u dB),
        (timeOf_liked s C t3 u dC) by done. done.
  }
  assert (Query.after s B [C; B; A] = [A]) as Hafter.
  { apply after_three.
    rewrite (timeOf_liked s A t1 u dA), (timeOf_liked s B t2 u dB),
      (timeOf_liked s C t3 u dC) by done. done. }
  assert (getProductsLikedByUser u (Int 2) None s = Ok [pC; pB]) as H1.
  { unfold getProductsLikedByUser. rewrite Hord. simpl. unfold getById.
    by rewrite HsC, HsB. }
  assert (getProductsLikedByUser u (Int 2) (Some B) s = Ok [pA]) as H2.
  { unfold getProductsLikedByUser. rewrite bool_decide_false by done.
    rewrite HsB, updatedAtOf_liked, Hord, Hafter. simpl. unfold getById.
    by rewrite HsA. }
  assert (truthy (Some u) = Some u) as Htr.
  { unfold truthy. by rewrite bool_decide_false. }
  assert (getLikedProducts (Some u) (Some (Int 2)) None s
    = success (PList [formatProductResponse pC (Some u); formatProductResponse pB (Some u)])
              "Liked products fetched successfully") as H3.
  { unfold getLikedProducts, ProductService.getProductsLikedByUser.
    rewrite Htr. change (default (Int 20) (Some (Int 2))) with (Int 2). by rewrite H1. }
  assert (getLikedProducts (Some u) (Some (Int 2)) (Some B) s
    = success (PList [formatProductResponse pA (Some u)])
              "Liked products fetched successfully") as H4.
  { unfold getLikedProducts, ProductService.getProductsLikedByUser.
    rewrite Htr. change (default (Int 20) (Some (Int 2))) with (Int 2). by rewrite H2. }
  split_and!; try done.
  - by rewrite H3.
  - by rewrite H4.
  - intros Hid. rewrite formatProductResponse_other by done.
    unfold pB, toProduct. rewrite lookup_union_r; [apply lookup_singleton_eq|].
    unfold liked. by rewrite updateDoc_lookup_other
      by (simpl; rewrite !not_elem_of_cons; split_and!; [done..|apply not_elem_of_nil]).
Qed.
End listing.

(** ** Likes of distinct users, one after the other *)

Section serial.
Import ProductRepository.
Implicit Types (d : Obj) (s : Store) (u id : string).

(** Transactions on one product take effect one at a time; in whatever order
    the likes of users that are different from one another and from the
    present members are applied, each of them counts once. *)
Lemma serial_likes s id d (uts : list (string * Z)) :
  s !! id = Some d →
  NoDup (likedByOf d ++ uts.*1) →
  ∃ d', run (likesBy id uts) s !! id = Some d'
        ∧ likedByOf d' = likedByOf d ++ uts.*1
        ∧ currentLikes d' = (currentLikes d + Z.of_nat (length uts))%Z.
Proof.
  unfold run, likesBy. revert s d.
  induction uts as [|[u t] uts IH]; intros s d Hd Hnd; simpl.
  - exists d. rewrite (right_id_L [] (++)). split_and!; [done..|lia].
  - assert (u ∉ likedByOf d) as Hu.
    { apply NoDup_app in Hnd as (_ & Hdis & _). intros Hin.
      apply (Hdis u Hin). simpl. apply list_elem_of_here. }
    unfold ProductService.likeProduct. rewrite (addLike_new _ _ _ _ _ Hd Hu). simpl.
    destruct (IH (<[id := liked t u d]> s) (liked t u d)) as (d' & Hd' & Hl & Hc).
    + apply lookup_insert_eq.
    + rewrite likedByOf_liked by done. by rewrite <- (assoc_L (++)).
    + exists d'. split; [exact Hd'|]. rewrite Hl, Hc, likedByOf_liked, currentLikes_liked by done.
      rewrite <- (assoc_L (++)). split; [done|lia].
Qed.

Lemma serial_likes_fresh s id d (uts : list (string * Z)) :
  s !! id = Some d → freshProduct d → NoDup uts.*1 →
  ∃ d', run (likesBy id uts) s !! id = Some d'
        ∧ currentLikes d' = Z.of_nat (length uts)
        ∧ ∀ u, u ∈ uts.*1 → u ∈ likedByOf d'.
Proof.
  intros Hd [Hl Hc] Hnd.
  destruct (serial_likes s id d uts Hd) as (d' & Hd' & Hl' & Hc').
  { by rewrite Hl. }
  exists d'. rewrite Hl', Hc', Hl, Hc. split_and!; [done|lia|done].
Qed.
End serial.

(** ** Where the earlier revision differs *)

Section legacy.
Import ProductRepository.

(** A second like by a member counts again: [coat] is liked by [u2] with
    counter 1, and after the earlier [addLike] for [u2] the counter is 2 with
    the one member. *)
Lemma legacy_addLike_counts_twice :
  ∃ p, (Legacy.addLike "p1" "u2" 9 {[ "p1" := Demo.coat ]}).1 = Some p
       ∧ currentLikes p = 2%Z ∧ likedByOf p = ["u2"].
Proof. eexists. split_and!; [vm_compute; reflexivity|reflexivity..]. Qed.

(** The decrement is not clamped: a listed user with counter 0 leaves -1. *)
Lemma legacy_removeLike_goes_negative :
  ∃ p, (Legacy.removeLike "p1" "u1" 9 {[ "p1" := Demo.stale ]}).1 = Some p
       ∧ currentLikes p = (-1)%Z ∧ likedByOf p = [].
Proof. eexists. split_and!; [vm_compute; reflexivity|reflexivity..]. Qed.

(** The earlier read handlers pass [likedBy] through. *)
Lemma legacy_view_keeps_likedBy (product : Obj) (uid : option string) :
  Legacy.withLikeStatus product uid !! "likedBy" = product !! "likedBy".
Proof. unfold Legacy.withLikeStatus. by do 2 (rewrite lookup_insert_ne by done). Qed.
End legacy.

(** ** The claims at sample data *)

Ltac by_compute := apply (bool_decide_unpack _); vm_compute; exact I.

Section samples.
Import ProductRepository productController.

(** C1 at sample data: [u2] likes [coat] again. *)
Lemma addLike_idempotent_witness :
  addLike "p1" "u2" 9 {[ "p1" := Demo.coat ]}
  = (Ok (getById "p1" {[ "p1" := Demo.coat ]}), {[ "p1" := Demo.coat ]})
  ∧ getById "p1" {[ "p1" := Demo.coat ]} = Some (toProduct "p1" Demo.coat).
Proof.
  apply (proj1 (addLike_idempotent {[ "p1" := Demo.coat ]} "p1" "u2" 9 10) Demo.coat).
  - reflexivity.
  - by_compute.
Defined.

(** C5 at sample data: no product zz in [shop]. *)
Lemma like_unlike_not_found_witness :
  addLike "zz" "u1" 9 Demo.shop = (Ok None, Demo.shop)
  ∧ removeLike "zz" "u1" 9 Demo.shop = (Ok None, Demo.shop).
Proof.
  assert (Demo.shop !! "zz" = None) as H by reflexivity.
  assert ("u1" ≠ "") as Hu by discriminate.
  destruct (like_unlike_not_found Demo.shop "zz" "u1" 9 H Hu) as (H1 & H2 & _).
  exact (conj H1 H2).
Defined.

(** C10 at sample data: [stale] lists [u1] with counter 0. *)
Lemma removeLike_clears_membership_witness :
  ∃ data',
    removeLike "p1" "u1" 9 {[ "p1" := Demo.stale ]}
    = (Ok (Some (toProduct "p1" data')), <["p1" := data']> {[ "p1" := Demo.stale ]})
    ∧ ("u1" ∉ likedByOf data')
    ∧ currentLikes data' = 0%Z.
Proof.
  assert (({[ "p1" := Demo.stale ]} : Store) !! "p1" = Some Demo.stale) as H by reflexivity.
  destruct (removeLike_clears_membership _ "p1" "u1" Demo.stale 9 H)
    as (data' & Hr & Hn & _ & Hz).
  exists data'. split_and!; [exact Hr|exact Hn|].
  apply Hz; [|reflexivity]. by_compute.
Defined.

(** C6 at sample data: [u1] is not a member of [coat]. *)
Lemma removeLike_non_member_witness :
  ∃ data',
    removeLike "p1" "u1" 9 {[ "p1" := Demo.coat ]}
    = (Ok (Some (toProduct "p1" data')), <["p1" := data']> {[ "p1" := Demo.coat ]})
    ∧ data' !! "updatedAt" = Some (VTime 9)
    ∧ currentLikes data' = 1%Z.
Proof.
  assert (({[ "p1" := Demo.coat ]} : Store) !! "p1" = Some Demo.coat) as H by reflexivity.
  assert ("u1" ∉ likedByOf Demo.coat) as Hu.
  { by_compute. }
  destruct (removeLike_non_member _ "p1" "u1" Demo.coat 9 H Hu)
    as (data' & Hr & _ & Ht & Hc & _).
  exists data'. split_and!; [exact Hr|exact Ht|]. rewrite Hc. reflexivity.
Defined.

(** C6, counterexample to the claim as stated: [u1] is not a member of
    [coat], yet unliking it at time 9 rewrites the document: [updatedAt]
    goes from 5 to 9. *)
Lemma removeLike_non_member_writes :
  ("u1" ∉ likedByOf Demo.coat)
  ∧ updatedAtOf Demo.coat = Some 5%Z
  ∧ (removeLike "p1" "u1" 9 {[ "p1" := Demo.coat ]}).2 !! "p1" ≫= updatedAtOf = Some 9%Z
  ∧ (removeLike "p1" "u1" 9 {[ "p1" := Demo.coat ]}).2 ≠ {[ "p1" := Demo.coat ]}.
Proof.
  split_and!.
  - by_compute.
  - reflexivity.
  - vm_compute. reflexivity.
  - intros Heq. apply (f_equal (λ m : Store, m !! "p1" ≫= updatedAtOf)) in Heq.
    vm_compute in Heq. discriminate.
Qed.

#[local] Instance consistent_dec d : Decision (consistent d).
Proof. unfold consistent. apply _. Defined.

#[local] Instance nonNegative_dec d : Decision (nonNegative d).
Proof. unfold nonNegative. apply _. Defined.

#[local] Instance isLikeOrUnlike_dec o : Decision (isLikeOrUnlike o).
Proof. destruct o as [[] ?]; unfold isLikeOrUnlike; simpl; apply _. Defined.

#[local] Instance freshProduct_dec d : Decision (freshProduct d).
Proof. unfold freshProduct. apply _. Defined.

(** C2 at sample data: likes and unlikes on [shop]. *)
Lemma likes_match_members_witness :
  map_Forall (λ _ d, consistent d)
    (run [(Like "a" "u1", 2%Z); (Like "a" "u1", 3%Z); (Unlike "b" "u1", 4%Z);
          (Like "a" "u2", 5%Z); (Unlike "a" "u1", 6%Z)] Demo.shop).
Proof.
  apply likes_match_members.
  - by_compute.
  - by_compute.
Defined.

(** C2, counterexample to the claim as stated: every product of [shop] is
    fresh, and one [changePoints] by 1 leaves product a with counter 1 and
    nobody in [likedBy]. *)
Lemma changePoints_breaks_match :
  map_Forall (λ _ d, freshProduct d) Demo.shop
  ∧ (∃ d, run [(ChangePoints "a" 1, 2%Z)] Demo.shop !! "a" = Some d
          ∧ currentLikes d = 1%Z ∧ likedByOf d = [])
  ∧ ¬ map_Forall (λ _ d, consistent d) (run [(ChangePoints "a" 1, 2%Z)] Demo.shop).
Proof.
  split_and!.
  - by_compute.
  - eexists. split_and!; [vm_compute; reflexivity|reflexivity..].
  - apply (bool_decide_unpack _). vm_compute. exact I.
Qed.

(** C3 at sample data: a collection with a stale record. *)
Lemma likes_never_negative_witness :
  map_Forall (λ _ d, nonNegative d)
    (run [(Unlike "a" "u1", 2%Z); (ChangePoints "a" (-7), 3%Z); (Like "a" "u1", 4%Z)]
         (<["e" := Demo.stale]> Demo.shop)).
Proof.
  apply (proj1 (likes_never_negative (<["e" := Demo.stale]> Demo.shop))).
  by_compute.
Defined.

(** C3, counterexample to the claim as stated: in [broken] the counter is
    -1 and the set is empty; an unlike by [u1], who is not a member,
    completes and leaves the counter at -1. *)
Lemma negative_counter_survives :
  ¬ consistent Demo.broken
  ∧ (∃ p, (removeLike "p1" "u1" 9 {[ "p1" := Demo.broken ]}).1 = Ok (Some p)
          ∧ currentLikes p = (-1)%Z)
  ∧ ¬ map_Forall (λ _ d, nonNegative d)
        (run [(Unlike "p1" "u1", 9%Z)] {[ "p1" := Demo.broken ]}).
Proof.
  split_and!.
  - by_compute.
  - eexists. split; [vm_compute; reflexivity|reflexivity].
  - by_compute.
Qed.

(** C7 at sample data: the counter of [coat], and a record without one. *)
Lemma formatProductResponse_projection_witness :
  formatProductResponse (toProduct "p1" Demo.coat) (Some "u2") !! "likeCount" = Some (VNum 1)
  ∧ formatProductResponse (delete "likes" Demo.coat) None !! "likeCount" = Some (VNum 0).
Proof.
  split.
  - apply (proj1 (proj2 (proj2
      (formatProductResponse_projection (toProduct "p1" Demo.coat) (Some "u2"))))).
    + reflexivity.
    + discriminate.
  - apply (proj1 (formatProductResponse_projection (delete "likes" Demo.coat) None)).
    reflexivity.
Defined.

(** C8 at sample data: the two pages of [likedShop]. *)
Lemma liked_listing_pages_witness :
  getProductsLikedByUser "u1" (Int 2) None Demo.likedShop
  = Ok [toProduct "c" (liked 4 "u1" (Demo.fresh "cap"));
        toProduct "b" (liked 3 "u1" (Demo.fresh "boots"))]
  ∧ getProductsLikedByUser "u1" (Int 2) (Some "b") Demo.likedShop
    = Ok [toProduct "a" (liked 2 "u1" (Demo.fresh "apron"))].
Proof.
  assert ("u1" ≠ "") as Hu by discriminate.
  assert ("b" ≠ "") as Hb by discriminate.
  assert (NoDup ["a"; "b"; "c"]) as Hnd by by_compute.
  assert (map_Forall (λ _ d, "u1" ∉ likedByOf d) Demo.shop) as Hno by by_compute.
  assert (2 < 3 < 4)%Z as Ht by lia.
  destruct (liked_listing_pages Demo.shop "u1" "a" "b" "c"
              (Demo.fresh "apron") (Demo.fresh "boots") (Demo.fresh "cap") 2 3 4
              Hu Hb Hnd eq_refl eq_refl eq_refl Hno Ht) as (H1 & H2 & _).
  exact (conj H1 H2).
Defined.

(** C8, counterexample to the claim as stated: after [u1] has liked a, b
    and c in that order, the first page of two holds the views of c and b
    and the response has no cursor; the page after b holds the view of a;
    and the listing goes on in the same way after a, with an empty page. *)
Lemma liked_listing_has_no_cursor :
  data (getLikedProducts (Some "u1") (Some (Int 2)) None Demo.likedShop)
  = PList [formatProductResponse (toProduct "c" (liked 4 "u1" (Demo.fresh "cap"))) (Some "u1");
           formatProductResponse (toProduct "b" (liked 3 "u1" (Demo.fresh "boots"))) (Some "u1")]
  ∧ ¬ (∃ token, nextCursor (getLikedProducts (Some "u1") (Some (Int 2)) None Demo.likedShop)
                = Some token)
  ∧ data (getLikedProducts (Some "u1") (Some (Int 2)) (Some "b") Demo.likedShop)
    = PList [formatProductResponse (toProduct "a" (liked 2 "u1" (Demo.fresh "apron"))) (Some "u1")]
  ∧ data (getLikedProducts (Some "u1") (Some (Int 2)) (Some "a") Demo.likedShop) = PList [].
Proof.
  split_and!.
  - vm_compute. reflexivity.
  - intros [token H]. vm_compute in H. discriminate.
  - vm_compute. reflexivity.
  - vm_compute. reflexivity.
Qed.

End samples.

(** ** The update endpoint *)

Section update_endpoint.
Import ProductRepository productController.

(** C4. The answer to a product update is not projected, so the privacy of
    [likedBy] fails at the update endpoint: when [u1] renames the coat it
    owns, on which [u2] has a like, the endpoint answers 200 with the product
    as [getById] reads it back, and the response carries the stored
    [likedBy], the array holding [u2]. *)
Lemma updateProduct_passes_likedBy :
  ∃ r s', updateProduct true "u1" "p1" {[ "name" := VStr "parka" ]} 9
            {[ "p1" := Demo.ownedCoat ]} = (r, s')
          ∧ status r = 200
          ∧ ∃ o, data r = PObj o ∧ o !! "likedBy" = Some (VArr ["u2"]).
Proof.
  eexists _, _. split_and!; [vm_compute; reflexivity|reflexivity|].
  eexists. split; reflexivity.
Qed.
End update_endpoint.

(** * Further properties of the code *)

(** ** What one like and one unlike write *)

Section effects.
Import ProductRepository.
Implicit Types (d data : Obj) (s : Store) (u userId id k : string) (now : Z).

Lemma lookup_liked now u d k :
  k ≠ "likedBy" → k ≠ "likes" → k ≠ "updatedAt" → liked now u d !! k = d !! k.
Proof.
  intros H1 H2 H3. apply updateDoc_lookup_other. simpl.
  rewrite !not_elem_of_cons. split_and!; [done..|]. apply not_elem_of_nil.
Qed.

Lemma lookup_unliked_member now u d k :
  k ≠ "likedBy" → k ≠ "likes" → k ≠ "updatedAt" → unliked_member now u d !! k = d !! k.
Proof.
  intros H1 H2 H3. apply updateDoc_lookup_other. simpl.
  rewrite !not_elem_of_cons. split_and!; [done..|]. apply not_elem_of_nil.
Qed.

Lemma lookup_adjusted now delta d k :
  k ≠ "likes" → k ≠ "updatedAt" → adjusted now delta d !! k = d !! k.
Proof.
  intros H1 H2. apply updateDoc_lookup_other. simpl.
  rewrite !not_elem_of_cons. split_and!; [done..|]. apply not_elem_of_nil.
Qed.

(** X1. A like by a user who is not yet a member of an existing product
    succeeds, appends the user to [likedBy], raises the counter by one,
    stamps [updatedAt], and changes no other field and no other product. *)
Theorem addLike_first_like (s : Store) (id userId : string) (data : Obj) (now : Z) :
  s !! id = Some data →
  userId ∉ likedByOf data →
  ∃ data',
    addLike id userId now s = (Ok (Some (toProduct id data')), <[id := data']> s)
    ∧ data' !! "likedBy" = Some (VArr (likedByOf data ++ [userId]))
    ∧ data' !! "likes" = Some (VNum (currentLikes data + 1))
    ∧ data' !! "updatedAt" = Some (VTime now)
    ∧ (∀ k, k ≠ "likedBy" → k ≠ "likes" → k ≠ "updatedAt" → data' !! k = data !! k)
    ∧ (∀ id', id' ≠ id → (addLike id userId now s).2 !! id' = s !! id').
Proof.
  intros H Hu. exists (liked now userId data).
  rewrite (addLike_new _ _ _ _ _ H Hu). split_and!.
  - done.
  - unfold liked, updateDoc; simpl. rewrite lookup_insert_eq.
    unfold likedByOf in *. destruct (data !! "likedBy") as [[]|]; simpl; try done.
    by rewrite arrayUnion_new.
  - unfold liked, updateDoc; simpl.
    rewrite lookup_insert_ne by done. rewrite lookup_insert_eq.
    unfold currentLikes. by destruct (data !! "likes") as [[]|].
  - unfold liked, updateDoc; simpl.
    do 2 (rewrite lookup_insert_ne by done). by rewrite lookup_insert_eq.
  - intros k. apply lookup_liked.
  - intros id' Hne; simpl. by rewrite lookup_insert_ne.
Qed.

(** X2. An unlike by a member of an existing product succeeds, removes every
    occurrence of the user from [likedBy] and keeps the other members in
    their order, writes the counter as [max 0 (counter - 1)], stamps
    [updatedAt], and changes no other field and no other product. *)
Theorem removeLike_member_effect (s : Store) (id userId : string) (data : Obj) (now : Z) :
  s !! id = Some data →
  userId ∈ likedByOf data →
  ∃ data',
    removeLike id userId now s = (Ok (Some (toProduct id data')), <[id := data']> s)
    ∧ data' !! "likedBy" = Some (VArr (filter (λ v, v ≠ userId) (likedByOf data)))
    ∧ data' !! "likes" = Some (VNum (Z.max 0 (currentLikes data - 1)))
    ∧ data' !! "updatedAt" = Some (VTime now)
    ∧ (∀ k, k ≠ "likedBy" → k ≠ "likes" → k ≠ "updatedAt" → data' !! k = data !! k)
    ∧ (∀ id', id' ≠ id → (removeLike id userId now s).2 !! id' = s !! id').
Proof.
  intros H Hu. exists (unliked_member now userId data).
  rewrite (removeLike_member _ _ _ _ _ H Hu). split_and!.
  - done.
  - unfold unliked_member, updateDoc; simpl. rewrite lookup_insert_eq.
    unfold likedByOf in *. destruct (data !! "likedBy") as [[]|]; simpl; try done;
      by apply not_elem_of_nil in Hu.
  - unfold unliked_member, updateDoc; simpl.
    rewrite lookup_insert_ne by done. by rewrite lookup_insert_eq.
  - unfold unliked_member, updateDoc; simpl.
    do 2 (rewrite lookup_insert_ne by done). by rewrite lookup_insert_eq.
  - intros k. apply lookup_unliked_member.
  - intros id' Hne; simpl. by rewrite lookup_insert_ne.
Qed.

Lemma arrayRemove_snoc u (l : list string) : u ∉ l → arrayRemove u (l ++ [u]) = l.
Proof.
  intros Hu. unfold arrayRemove. rewrite filter_app.
  rewrite filter_cons_False by (by intros H; apply H).
  rewrite filter_nil, (right_id_L [] (++)). by apply arrayRemove_absent.
Qed.

(** X3. Like, then unlike, by the same user restores the document: for a
    product whose [likedBy] is stored as an array without the user and whose
    counter is a stored number that is not negative, the two calls leave
    every field as it was except [updatedAt], which holds the time of the
    unlike. *)
Theorem like_then_unlike_restores
    (s : Store) (id userId : string) (data : Obj) (l : list string) (c : Z) (t1 t2 : Z) :
  s !! id = Some data →
  data !! "likedBy" = Some (VArr l) →
  userId ∉ l →
  data !! "likes" = Some (VNum c) →
  (0 ≤ c)%Z →
  (removeLike id userId t2 (addLike id userId t1 s).2).2
  = <[id := <["updatedAt" := VTime t2]> data]> s.
Proof.
  intros H Hl Hu Hc Hc0.
  assert (likedByOf data = l) as HlB by (unfold likedByOf; by rewrite Hl).
  assert (currentLikes data = c) as HcL by (unfold currentLikes; by rewrite Hc).
  rewrite (addLike_new id userId t1 s data) by (done || by rewrite HlB). simpl.
  rewrite (removeLike_member id userId t2 _ (liked t1 userId data)).
  2: apply lookup_insert_eq.
  2: { rewrite likedByOf_liked, HlB by (by rewrite HlB).
       apply elem_of_app. right. apply list_elem_of_here. }
  simpl. rewrite insert_insert_eq. f_equal.
  apply map_eq. intros k.
  destruct (decide (k = "updatedAt")) as [->|Hk1].
  { rewrite lookup_insert_eq. unfold unliked_member, updateDoc; simpl.
    do 2 (rewrite lookup_insert_ne by done). by rewrite lookup_insert_eq. }
  rewrite (lookup_insert_ne _ "updatedAt") by done.
  destruct (decide (k = "likedBy")) as [->|Hk2].
  { assert (liked t1 userId data !! "likedBy" = Some (VArr (l ++ [userId]))) as E.
    { unfold liked, updateDoc; simpl. rewrite lookup_insert_eq, Hl; simpl.
      by rewrite arrayUnion_new. }
    unfold unliked_member, updateDoc; simpl. rewrite lookup_insert_eq, E; simpl.
    by rewrite arrayRemove_snoc, Hl. }
  destruct (decide (k = "likes")) as [->|Hk3].
  { unfold unliked_member, updateDoc; simpl.
    rewrite lookup_insert_ne by done. rewrite lookup_insert_eq.
    rewrite currentLikes_liked, HcL, Hc. do 2 f_equal. lia. }
  rewrite lookup_unliked_member by done. by apply lookup_liked.
Qed.

End effects.

(** ** Along sequences of operations *)

Section sequences.
Import ProductRepository.
Implicit Types (d data : Obj) (s : Store) (u userId id k : string) (now : Z).

Lemma NoDup_arrayRemove u (l : list string) : NoDup l → NoDup (arrayRemove u l).
Proof. apply NoDup_filter. Qed.

Lemma step_NoDup s o :
  map_Forall (λ _ d, NoDup (likedByOf d)) s →
  map_Forall (λ _ d, NoDup (likedByOf d)) (step s o).
Proof.
  destruct o as [[id u|id u|id delta] now]; intros Hs.
  - destruct (step_Like s id u now) as [->|(d & Hd & Hu & ->)]; [done|].
    apply map_Forall_insert_2; [|done].
    rewrite likedByOf_liked by done. apply NoDup_app. split_and!.
    + by apply (Hs id).
    + intros x Hx Hx'. apply list_elem_of_singleton in Hx' as ->. done.
    + apply NoDup_singleton.
  - destruct (step_Unlike s id u now) as [->|(d & Hd & [[Hu ->]|[Hu ->]])]; [done|..];
      (apply map_Forall_insert_2; [|done]).
    + rewrite likedByOf_unliked_member. apply NoDup_arrayRemove. by apply (Hs id).
    + rewrite likedByOf_unliked_other. apply NoDup_arrayRemove. by apply (Hs id).
  - destruct (step_ChangePoints s id delta now) as [->|(d & Hd & ->)]; [done|].
    apply map_Forall_insert_2; [|done].
    rewrite likedByOf_adjusted. by apply (Hs id).
Qed.

(** X4. No user is listed twice: if no stored [likedBy] holds a user more
    than once, no sequence of like, unlike and changePoints operations leads
    to one that does. *)
Theorem likedBy_stays_duplicate_free (s : Store) (ops : list (Op * Z)) :
  map_Forall (λ _ d, NoDup (likedByOf d)) s →
  map_Forall (λ _ d, NoDup (likedByOf d)) (run ops s).
Proof.
  unfold run. revert s. induction ops as [|o ops IH]; intros s Hs; [done|].
  simpl. apply IH. by apply step_NoDup.
Qed.

Lemma step_dom s o : dom (step s o) = dom s.
Proof.
  destruct o as [[id u|id u|id delta] now].
  - destruct (step_Like s id u now) as [->|(d & Hd & Hu & ->)]; [done|].
    apply dom_insert_lookup_L. by eexists.
  - destruct (step_Unlike s id u now) as [->|(d & Hd & [[Hu ->]|[Hu ->]])]; [done|..];
      apply dom_insert_lookup_L; by eexists.
  - destruct (step_ChangePoints s id delta now) as [->|(d & Hd & ->)]; [done|].
    apply dom_insert_lookup_L. by eexists.
Qed.

Lemma step_other s o id : target o ≠ id → step s o !! id = s !! id.
Proof.
  destruct o as [[id' u|id' u|id' delta] now]; intros Hne;
    unfold target in Hne; simpl in Hne.
  - destruct (step_Like s id' u now) as [->|(d & Hd & Hu & ->)]; [done|].
    by rewrite lookup_insert_ne.
  - destruct (step_Unlike s id' u now) as [->|(d & Hd & [[Hu ->]|[Hu ->]])]; [done|..];
      by rewrite lookup_insert_ne.
  - destruct (step_ChangePoints s id' delta now) as [->|(d & Hd & ->)]; [done|].
    by rewrite lookup_insert_ne.
Qed.

(** X5. Like, unlike and changePoints neither create nor delete products,
    and a product that no operation of a sequence addresses is, after the
    sequence, exactly as before. *)
Theorem operations_keep_products (s : Store) (ops : list (Op * Z)) :
  dom (run ops s) = dom s
  ∧ ∀ id, id ∉ target <$> ops → run ops s !! id = s !! id.
Proof.
  unfold run. revert s. induction ops as [|o ops IH]; intros s; [done|].
  simpl. destruct (IH (step s o)) as [Hdom Hother]. split.
  - by rewrite Hdom, step_dom.
  - intros id [Ho Hid]%not_elem_of_cons.
    rewrite Hother by done. apply step_other. congruence.
Qed.

(** X6. [changePoints] is [adjustLikes]: the existence check of the service
    changes nothing. On a missing product both return [null] and write
    nothing; on an existing one the counter becomes [max 0 (counter + delta)],
    [updatedAt] is stamped, and [likedBy], every other field and every other
    product stay as they were. *)
Theorem changePoints_effect (s : Store) (id : string) (delta now : Z) :
  ProductService.changePoints id delta now s = adjustLikes id delta now s
  ∧ (s !! id = None → adjustLikes id delta now s = (None, s))
  ∧ (∀ data, s !! id = Some data →
       ∃ data',
         adjustLikes id delta now s = (Some (toProduct id data'), <[id := data']> s)
         ∧ data' !! "likes" = Some (VNum (Z.max 0 (currentLikes data + delta)))
         ∧ data' !! "updatedAt" = Some (VTime now)
         ∧ (∀ k, k ≠ "likes" → k ≠ "updatedAt" → data' !! k = data !! k)).
Proof.
  split_and!.
  - unfold ProductService.changePoints, adjustLikes, getById.
    by destruct (s !! id).
  - intros H. unfold adjustLikes. by rewrite H.
  - intros data H. exists (adjusted now delta data).
    rewrite (adjustLikes_present _ _ _ _ _ H). split_and!.
    + done.
    + unfold adjusted, updateDoc; simpl. by rewrite lookup_insert_eq.
    + unfold adjusted, updateDoc; simpl.
      rewrite lookup_insert_ne by done. by rewrite lookup_insert_eq.
    + intros k. apply lookup_adjusted.
Qed.

(** X7. Likes of users that differ from one another and from the present
    members, applied one after the other in any order, all count: the
    counter grows by their number and [likedBy] gains them in the order of
    the calls. On a product without likes the counter ends as the number of
    users. *)
Theorem likes_of_distinct_users (s : Store) (id : string) (data : Obj)
    (uts : list (string * Z)) :
  s !! id = Some data →
  NoDup (likedByOf data ++ uts.*1) →
  ∃ data', run (likesBy id uts) s !! id = Some data'
           ∧ likedByOf data' = likedByOf data ++ uts.*1
           ∧ currentLikes data' = (currentLikes data + Z.of_nat (length uts))%Z
           ∧ (freshProduct data →
              currentLikes data' = Z.of_nat (length uts) ∧ likedByOf data' = uts.*1).
Proof.
  intros H Hnd. destruct (serial_likes s id data uts H Hnd) as (d' & Hd' & Hl & Hc).
  exists d'. split_and!; [done..|].
  intros [Hl0 Hc0]. rewrite Hl, Hc, Hl0, Hc0. split; [lia|done].
Qed.

End sequences.

(** ** The liked-products listing in general *)

Section listing_general.
Import ProductRepository productController.
Implicit Types (d : Obj) (s : Store) (u id c : string) (ids : list string).

#[local] Existing Instances newerFirst_total newerFirst_trans newerFirst_antisym.


Lemma ordered_StronglySorted u s : StronglySorted (Query.newerFirst s) (Query.ordered u s).
Proof. unfold Query.ordered. apply StronglySorted_merge_sort; apply _. Qed.

Lemma ordered_NoDup u s : NoDup (Query.ordered u s).
Proof.
  unfold Query.ordered. rewrite merge_sort_Permutation.
  apply NoDup_filter, NoDup_elements.
Qed.

Lemma ordered_matches u s id : id ∈ Query.ordered u s → Query.matches u s id = true.
Proof.
  unfold Query.ordered. rewrite merge_sort_Permutation, list_elem_of_filter.
  intros [H _]. by apply Is_true_true.
Qed.

Lemma matches_inv u s id :
  Query.matches u s id = true →
  ∃ d t, s !! id = Some d ∧ u ∈ likedByOf d ∧ updatedAtOf d = Some t
         ∧ Query.timeOf s id = t.
Proof.
  unfold Query.matches, Query.timeOf. destruct (s !! id) as [d|]; [|done].
  rewrite andb_true_iff, !bool_decide_eq_true. intros [Hu [t Ht]].
  exists d, t. simpl. rewrite Ht. done.
Qed.



Lemma limited_positive (k : nat) ids : limited (Z.of_nat (S k)) ids = Ok (take (S k) ids).
Proof.
  unfold limited.
  destruct (Z.ltb_spec (Z.of_nat (S k)) 0) as [?|_]; [lia|].
  destruct (Z.eqb_spec (Z.of_nat (S k)) 0) as [?|_]; [lia|].
  by rewrite Nat2Z.id.
Qed.

Lemma limited_inv n ids page :
  limited n ids = Ok page →
  page `sublist_of` ids
  ∧ ((0 < n)%Z → (Z.of_nat (length page) ≤ n)%Z)
  ∧ (n = 0%Z → page = ids).
Proof.
  unfold limited.
  destruct (Z.ltb_spec n 0) as [?|Hn]; [done|].
  destruct (Z.eqb_spec n 0) as [->|Hn0]; intros [= <-].
  - split_and!; [done|lia|done].
  - split_and!; [apply sublist_take| |done].
    intros _. rewrite length_take. lia.
Qed.

(** The ids behind a page. *)
Lemma page_ids u limit cursor s ps :
  getProductsLikedByUser u limit cursor s = Ok ps →
  ∃ n ids, limit = Int n
           ∧ ids `sublist_of` Query.ordered u s
           ∧ ((0 < n)%Z → (Z.of_nat (length ids) ≤ n)%Z)
           ∧ (n = 0%Z → cursor = None → ids = Query.ordered u s)
           ∧ ps = omap (λ id, getById id s) ids.
Proof.
  unfold getProductsLikedByUser. destruct limit as [|n]; [done|].
  assert (∀ l, l `sublist_of` Query.ordered u s →
               (cursor = None → l = Query.ordered u s) →
               match limited n l with
               | Ok page => Ok (omap (λ id, getById id s) page)
               | Throw msg => Throw msg
               end = Ok ps →
               ∃ n' ids, Int n = Int n'
                      ∧ ids `sublist_of` Query.ordered u s
                      ∧ ((0 < n')%Z → (Z.of_nat (length ids) ≤ n')%Z)
                      ∧ (n' = 0%Z → cursor = None → ids = Query.ordered u s)
                      ∧ ps = omap (λ id, getById id s) ids) as Hfin.
  { intros l Hl Hc H. destruct (limited n l) as [page|] eqn:Hp; [|done].
    injection H as <-. destruct (limited_inv n l page Hp) as (Hsub & Hlen & H0).
    exists n, page. split_and!; [done| |done| |done].
    - by etrans.
    - intros Hn Hcur. by rewrite (H0 Hn), (Hc Hcur). }
  destruct cursor as [c|]; [|by apply Hfin].
  destruct (bool_decide (c = "")); [by apply Hfin|].
  destruct (s !! c) as [dc|]; [|by apply Hfin].
  destruct (updatedAtOf dc); [|done].
  apply Hfin; [|done]. unfold Query.after. apply sublist_filter.
Qed.

Lemma omap_getById_lookup u s ids ps i p :
  ids `sublist_of` Query.ordered u s →
  ps = omap (λ id, getById id s) ids →
  ps !! i = Some p →
  ∃ id d t, ids !! i = Some id ∧ s !! id = Some d ∧ p = toProduct id d
            ∧ u ∈ likedByOf d ∧ updatedAtOf d = Some t ∧ Query.timeOf s id = t.
Proof.
  intros Hsub ->. revert i. induction ids as [|x ids IH]; intros i; [done|].
  assert (Query.matches u s x = true) as Hx.
  { apply ordered_matches. eapply elem_of_sublist; [|done]. apply list_elem_of_here. }
  destruct (matches_inv u s x Hx) as (d & t & Hd & Hu & Ht & HT).
  simpl. unfold getById at 1. rewrite Hd; simpl.
  destruct i as [|i]; simpl.
  - intros [= <-]. by exists x, d, t.
  - apply IH. etrans; [|done]. by apply sublist_cons.
Qed.

Lemma omap_getById_length u s ids :
  ids `sublist_of` Query.ordered u s →
  length (omap (λ id, getById id s) ids) = length ids.
Proof.
  induction ids as [|x ids IH]; intros Hsub; [done|].
  assert (Query.matches u s x = true) as Hx.
  { apply ordered_matches. eapply elem_of_sublist; [|done]. apply list_elem_of_here. }
  destruct (matches_inv u s x Hx) as (d & t & Hd & _).
  simpl. unfold getById at 1. rewrite Hd; simpl. f_equal. apply IH.
  etrans; [|done]. by apply sublist_cons.
Qed.


End listing_general.

Section paging.
Import ProductRepository productController.
Implicit Types (d : Obj) (s : Store) (u id c : string) (ids : list string).

#[local] Existing Instances newerFirst_total newerFirst_trans newerFirst_antisym.

Lemma filter_all {A} (P : A → Prop) `{!∀ x, Decision (P x)} (l : list A) :
  Forall P l → filter P l = l.
Proof.
  induction 1 as [|x l Hx Hl IH]; [done|].
  by rewrite filter_cons_True, IH.
Qed.

(** Behind a cursor lies what follows it in the listing. *)
Lemma after_drop s c ids n :
  StronglySorted (Query.newerFirst s) ids → NoDup ids →
  ids !! n = Some c →
  Query.after s c ids = drop (S n) ids.
Proof.
  unfold Query.after. intros Hs. revert n.
  induction Hs as [|x l Hs IH Hall]; intros n Hnd Hn; [done|].
  apply NoDup_cons in Hnd as [Hx Hnd].
  pose proof (proj1 (list.Forall_forall _ _) Hall) as Hall'.
  destruct n as [|n]; simpl in Hn.
  - injection Hn as ->.
    rewrite filter_cons_False by (intros H; apply H, newerFirst_refl).
    simpl. rewrite drop_0. apply filter_all. apply list.Forall_forall.
    intros y Hy Hyc. apply Hx.
    assert (c = y) as -> by (apply (anti_symm (Query.newerFirst s)); auto).
    done.
  - rewrite filter_cons_False.
    + apply (IH n); done.
    + intros H. apply H, Hall'. by eapply list_elem_of_lookup_2.
Qed.

(** X9. Paging by the id of the last product: if [c] is the document at
    position [n] of the user's listing, the page of [n + 1] products from the
    head ends with [c], and the page of [m + 1] products after [c] continues
    it without a gap or a repetition: together they are the page of
    [n + 1 + (m + 1)] products from the head. A cursor that is empty or names
    no document is ignored: the query starts from the head. *)
Theorem liked_pages_chain (u : string) (s : Store) (n m : nat) (c : string) :
  (∀ c' limit, c' = "" ∨ s !! c' = None →
     getProductsLikedByUser u limit (Some c') s = getProductsLikedByUser u limit None s)
  ∧ (Query.ordered u s !! n = Some c → c ≠ "" →
     ∃ p1 p2 d,
       getProductsLikedByUser u (Int (Z.of_nat (S n))) None s = Ok p1
       ∧ s !! c = Some d ∧ last p1 = Some (toProduct c d)
       ∧ getProductsLikedByUser u (Int (Z.of_nat (S m))) (Some c) s = Ok p2
       ∧ getProductsLikedByUser u (Int (Z.of_nat (S n + S m))) None s = Ok (p1 ++ p2)).
Proof.
  split.
  - intros c' limit [->|Hc]; unfold getProductsLikedByUser; destruct limit as [|k];
      try done.
    destruct (bool_decide (c' = "")); [done|]. by rewrite Hc.
  - intros Hn Hc.
    assert (Query.matches u s c = true) as Hm.
    { apply ordered_matches. by eapply list_elem_of_lookup_2. }
    destruct (matches_inv u s c Hm) as (d & t & Hd & _ & Ht & _).
    exists (omap (λ id, getById id s) (take (S n) (Query.ordered u s))),
           (omap (λ id, getById id s) (take (S m) (drop (S n) (Query.ordered u s)))), d.
    split_and!.
    + unfold getProductsLikedByUser. by rewrite limited_positive.
    + done.
    + rewrite (take_S_r _ _ c) by done. rewrite omap_app. simpl.
      unfold getById at 2. rewrite Hd. simpl. by rewrite last_snoc.
    + unfold getProductsLikedByUser. rewrite bool_decide_false by done.
      rewrite Hd, Ht, limited_positive. rewrite (after_drop s c _ n); [done|..|done].
      * apply ordered_StronglySorted.
      * apply ordered_NoDup.
    + unfold getProductsLikedByUser.
      replace (S n + S m) with (S (n + S m)) by lia. rewrite limited_positive.
      replace (S (n + S m)) with (S n + S m) by lia.
      by rewrite <- omap_app, take_take_drop.
Qed.

(** X10. The liked-products endpoint. Without a user id it answers 401.
    For a user it sends at most [limit] views when the limit is positive, at
    most 20 when no limit is given, and every view it sends has
    [isLikedByUser] true; a limit that is [NaN] or negative is answered
    500. *)
Theorem liked_listing_views (uid : option string) (limit : option JsInt)
    (startAfter : option string) (s : Store) :
  (uid = None ∨ uid = Some "" →
     status (getLikedProducts uid limit startAfter s) = 401
     ∧ data (getLikedProducts uid limit startAfter s) = PNull)
  ∧ (∀ n, default (Int 20) limit = Int n → (0 < n)%Z →
       (Z.of_nat (length (objects (getLikedProducts uid limit startAfter s))) ≤ n)%Z)
  ∧ (∀ o, o ∈ objects (getLikedProducts uid limit startAfter s) →
       o !! "isLikedByUser" = Some (VBool true))
  ∧ (∀ u, uid = Some u → u ≠ "" →
       limit = Some NaN ∨ (∃ n, limit = Some (Int n) ∧ (n < 0)%Z) →
       status (getLikedProducts uid limit startAfter s) = 500).
Proof.
  unfold getLikedProducts, ProductService.getProductsLikedByUser.
  split_and!.
  - by intros [->| ->].
  - intros n Hn Hpos. destruct (truthy uid) as [u|]; [|simpl; lia].
    destruct (getProductsLikedByUser u (default (Int 20) limit) startAfter s)
      as [ps|] eqn:H; [|simpl; lia].
    unfold objects; simpl. rewrite length_fmap.
    destruct (page_ids _ _ _ _ _ H) as (n' & ids & Hlim & Hsub & Hlen & _ & ->).
    rewrite Hn in Hlim. injection Hlim as <-.
    rewrite (omap_getById_length u) by done. by apply Hlen.
  - intros o. destruct (truthy uid) as [u|] eqn:Hu.
    2: { unfold objects; simpl. by intros ?%not_elem_of_nil. }
    assert (u ≠ "") as Hne.
    { unfold truthy in Hu. destruct uid as [u'|]; [|done].
      destruct (decide (u' = "")) as [->|Hn]; [done|].
      rewrite bool_decide_false in Hu by done. by injection Hu as <-. }
    destruct (getProductsLikedByUser u (default (Int 20) limit) startAfter s)
      as [ps|] eqn:H.
    2: { unfold objects; simpl. by intros ?%not_elem_of_nil. }
    unfold objects; simpl. intros (p & -> & [i Hp]%list_elem_of_lookup)%list_elem_of_fmap.
    destruct (page_ids _ _ _ _ _ H) as (n' & ids & _ & Hsub & _ & _ & Hps).
    destruct (omap_getById_lookup u s ids ps i p Hsub Hps Hp)
      as (id & d & t & _ & _ & -> & Hin & _).
    rewrite formatProductResponse_isLikedByUser. do 2 f_equal.
    apply isLikedBy_member; [done|]. by rewrite likedByOf_toProduct.
  - intros u -> Hu Hl. unfold truthy. rewrite bool_decide_false by done.
    destruct Hl as [->|(n & -> & Hn)]; simpl; [done|].
    unfold getProductsLikedByUser, limited.
    destruct (Z.ltb_spec n 0) as [_|?]; [|lia].
    destruct startAfter as [c|]; [|done].
    destruct (bool_decide (c = "")); [done|].
    destruct (s !! c) as [dc|]; [|done]. by destruct (updatedAtOf dc).
Qed.

End paging.

(** ** Like and unlike, then read *)

Section like_then_read.
Import ProductRepository productController.
Implicit Types (d data o : Obj) (s : Store) (u id : string) (now : Z).

(** [likes || 0] and [likes ?? 0] agree on a counter that is a number or
    missing. *)
Lemma likesOrZero_agree o :
  (o !! "likes" = None ∨ ∃ c, o !! "likes" = Some (VNum c)) →
  likesOrZero_falsy o = likesOrZero o.
Proof.
  unfold likesOrZero_falsy, likesOrZero. intros [->|[c ->]]; [done|].
  by destruct c.
Qed.

(** X11. What the like endpoint answers is what a read shows next: after a
    like of an existing product whose counter is a number or missing, the
    same user's fetch of the product shows [isLikedByUser] true and the
    [likeCount] of the like response, whether or not the like had an
    effect. *)
Theorem like_response_matches_read (s : Store) (id u : string) (data : Obj) (now : Z) :
  s !! id = Some data →
  u ≠ "" →
  (data !! "likes" = None ∨ ∃ c, data !! "likes" = Some (VNum c)) →
  ∃ count s' view,
    likeProduct (Some u) id now s
    = (success (PObj {[ "likeCount" := count; "isLikedByUser" := VBool true ]})
               "Product liked successfully", s')
    ∧ getProductById (Some u) id s'
      = success (PObj view) "Product fetched successfully"
    ∧ view !! "likeCount" = Some count
    ∧ view !! "isLikedByUser" = Some (VBool true).
Proof.
  intros H Hu Hl.
  assert (truthy (Some u) = Some u) as Ht by (unfold truthy; by rewrite bool_decide_false).
  unfold likeProduct, getProductById, ProductService.likeProduct,
    ProductService.getProductById. rewrite Ht.
  destruct (decide (u ∈ likedByOf data)) as [Hin|Hin].
  - rewrite (addLike_member _ _ _ _ _ H Hin).
    eexists _, _, _. split; [done|]. unfold getById. rewrite H; simpl.
    split; [done|].
    rewrite formatProductResponse_likeCount, formatProductResponse_isLikedByUser.
    split.
    + f_equal. symmetry. apply likesOrZero_agree. by rewrite toProduct_lookup_ne.
    + do 2 f_equal. apply isLikedBy_member; [done|]. by rewrite likedByOf_toProduct.
  - rewrite (addLike_new _ _ _ _ _ H Hin).
    eexists _, _, _. split; [done|]. unfold getById. rewrite lookup_insert_eq; simpl.
    split; [done|].
    rewrite formatProductResponse_likeCount, formatProductResponse_isLikedByUser.
    split.
    + f_equal. symmetry. apply likesOrZero_agree. rewrite toProduct_lookup_ne by done.
      right. unfold liked, updateDoc; simpl.
      rewrite lookup_insert_ne by done. rewrite lookup_insert_eq.
      destruct (data !! "likes") as [[]|]; simpl; eauto.
    + do 2 f_equal. apply isLikedBy_member; [done|].
      rewrite likedByOf_toProduct, likedByOf_liked by done.
      apply elem_of_app. right. apply list_elem_of_here.
Qed.

(** X12. Likewise for unlike: after an unlike of an existing product whose
    counter is a number or missing, the same user's fetch shows
    [isLikedByUser] false and the [likeCount] of the unlike response. *)
Theorem unlike_response_matches_read (s : Store) (id u : string) (data : Obj) (now : Z) :
  s !! id = Some data →
  u ≠ "" →
  (data !! "likes" = None ∨ ∃ c, data !! "likes" = Some (VNum c)) →
  ∃ count s' view,
    unlikeProduct (Some u) id now s
    = (success (PObj {[ "likeCount" := count; "isLikedByUser" := VBool false ]})
               "Product unliked successfully", s')
    ∧ getProductById (Some u) id s'
      = success (PObj view) "Product fetched successfully"
    ∧ view !! "likeCount" = Some count
    ∧ view !! "isLikedByUser" = Some (VBool false).
Proof.
  intros H Hu Hl.
  assert (truthy (Some u) = Some u) as Ht by (unfold truthy; by rewrite bool_decide_false).
  unfold unlikeProduct, getProductById, ProductService.unlikeProduct,
    ProductService.getProductById. rewrite Ht.
  assert (∀ d', (u ∉ likedByOf d') →
            isLikedBy (toProduct id d' !! "likedBy") (Some u) = false) as Hout.
  { intros d' Hn. apply not_true_is_false. intros Hy.
    apply isLikedBy_member in Hy; [|done]. by rewrite likedByOf_toProduct in Hy. }
  destruct (decide (u ∈ likedByOf data)) as [Hin|Hin].
  - rewrite (removeLike_member _ _ _ _ _ H Hin).
    eexists _, _, _. split; [done|]. unfold getById. rewrite lookup_insert_eq; simpl.
    split; [done|].
    rewrite formatProductResponse_likeCount, formatProductResponse_isLikedByUser.
    split.
    + f_equal. symmetry. apply likesOrZero_agree. rewrite toProduct_lookup_ne by done.
      right. unfold unliked_member, updateDoc; simpl.
      rewrite lookup_insert_ne by done. rewrite lookup_insert_eq. eauto.
    + do 2 f_equal. apply Hout.
      rewrite likedByOf_unliked_member, elem_of_arrayRemove. tauto.
  - rewrite (removeLike_other _ _ _ _ _ H Hin).
    eexists _, _, _. split; [done|]. unfold getById. rewrite lookup_insert_eq; simpl.
    split; [done|].
    rewrite formatProductResponse_likeCount, formatProductResponse_isLikedByUser.
    split.
    + f_equal. symmetry. apply likesOrZero_agree. rewrite toProduct_lookup_ne by done.
      by rewrite lookup_unliked_other.
    + do 2 f_equal. apply Hout.
      rewrite likedByOf_unliked_other, elem_of_arrayRemove. tauto.
Qed.

End like_then_read.

(** ** Creating, updating and deleting products *)

Section crud.
Import ProductRepository productController.
Implicit Types (d data o body : Obj) (s : Store) (u uid id : string) (now : Z).

(** X13. [delete] reports whether there was a product, and once it has run
    the product is gone for every other method: [getById], [addLike],
    [removeLike] and [adjustLikes] return [null] without writing, and no
    user's liked listing holds the document; the other products are as
    before. *)
Theorem delete_then_gone (s : Store) (id u : string) (delta now : Z) :
  ((delete_ id s).1 = true ↔ is_Some (s !! id))
  ∧ getById id (delete_ id s).2 = None
  ∧ addLike id u now (delete_ id s).2 = (Ok None, (delete_ id s).2)
  ∧ removeLike id u now (delete_ id s).2 = (Ok None, (delete_ id s).2)
  ∧ adjustLikes id delta now (delete_ id s).2 = (None, (delete_ id s).2)
  ∧ (id ∉ Query.ordered u (delete_ id s).2)
  ∧ (∀ id', id' ≠ id → (delete_ id s).2 !! id' = s !! id').
Proof.
  assert ((delete_ id s).2 !! id = None) as Hgone.
  { unfold delete_. destruct (s !! id) eqn:H; simpl; [apply lookup_delete_eq|done]. }
  split_and!.
  - unfold delete_. destruct (s !! id) as [d|]; simpl.
    + split; [by eexists|done].
    + split; [done|by intros [? ?]].
  - unfold getById. by rewrite Hgone.
  - by apply addLike_absent.
  - by apply removeLike_absent.
  - unfold adjustLikes. by rewrite Hgone.
  - intros Hin%ordered_matches. unfold Query.matches in Hin. by rewrite Hgone in Hin.
  - intros id' Hne. unfold delete_. destruct (s !! id); simpl; [|done].
    by apply lookup_delete_ne.
Qed.





Lemma ownedBy_toProduct id d uid : ownedBy (toProduct id d) uid = ownedBy d uid.
Proof. unfold ownedBy. by rewrite toProduct_lookup_ne. Qed.

Lemma ownedBy_true d uid : ownedBy d uid = true ↔ d !! "userId" = Some (VStr uid).
Proof.
  unfold ownedBy. destruct (d !! "userId") as [[]|]; try (split; done).
  rewrite bool_decide_eq_true. split; [by intros ->|by intros [= ->]].
Qed.

(** X15. Only the owner writes through the update and delete endpoints. For
    a missing product both answer 404, for a product whose [userId] is not
    the caller's both answer 403, and in either case the collection is
    untouched; the owner's delete answers 200 and removes the product. *)
Theorem only_owner_writes (s : Store) (uid id : string) (referencesOk : bool)
    (updateData : Obj) (now : Z) :
  (s !! id = None →
     (updateProduct referencesOk uid id updateData now s).2 = s
     ∧ status (updateProduct referencesOk uid id updateData now s).1 = 404
     ∧ (deleteProduct uid id s).2 = s
     ∧ status (deleteProduct uid id s).1 = 404)
  ∧ (∀ data, s !! id = Some data → data !! "userId" ≠ Some (VStr uid) →
     (updateProduct referencesOk uid id updateData now s).2 = s
     ∧ status (updateProduct referencesOk uid id updateData now s).1 = 403
     ∧ (deleteProduct uid id s).2 = s
     ∧ status (deleteProduct uid id s).1 = 403)
  ∧ (∀ data, s !! id = Some data → data !! "userId" = Some (VStr uid) →
     (deleteProduct uid id s).2 = delete id s
     ∧ status (deleteProduct uid id s).1 = 200).
Proof.
  unfold updateProduct, deleteProduct, ProductService.getProductById, getById.
  split_and!.
  - intros ->. done.
  - intros data -> Hown. simpl.
    assert (ownedBy (toProduct id data) uid = false) as Hf.
    { apply not_true_is_false. rewrite ownedBy_toProduct, ownedBy_true. done. }
    rewrite Hf. unfold ownedBy in Hf. rewrite Hf. done.
  - intros data H Hown. rewrite H. simpl.
    assert (ownedBy (toProduct id data) uid = true) as Ht.
    { by rewrite ownedBy_toProduct, ownedBy_true. }
    rewrite Ht. simpl. unfold ProductService.deleteProduct, delete_. by rewrite H.
Qed.

(** X16. A product created through the endpoint belongs to the caller,
    whatever the body says: the stored [userId] is the caller's id, so the
    caller passes the ownership check afterwards. The stored dates are the
    server's, the stored counter is the body's [likes] or 0, every other
    field is the body's, and a body without [likes] and [likedBy] gives a
    product with no like. Nothing else in the collection changes when the
    new id is unused; when the references are refused, nothing is stored
    and the answer is 400. *)
Theorem createProduct_stores_owner (s : Store) (uid newId : string) (body : Obj)
    (now date0 date : Z) :
  (∃ stored,
     (createProduct true uid newId body now date0 date s).2 = <[newId := stored]> s
     ∧ status (createProduct true uid newId body now date0 date s).1 = 201
     ∧ stored !! "userId" = Some (VStr uid)
     ∧ ownedBy stored uid = true
     ∧ stored !! "createdAt" = Some (VTime now)
     ∧ stored !! "updatedAt" = Some (VTime now)
     ∧ stored !! "likes" = Some (ProductService.likesOr0 body)
     ∧ (∀ k, k ≠ "userId" → k ≠ "likes" → k ≠ "createdAt" → k ≠ "updatedAt" →
          stored !! k = body !! k)
     ∧ (body !! "likes" = None → body !! "likedBy" = None → freshProduct stored))
  ∧ (s !! newId = None →
     ∀ id d, s !! id = Some d →
       (createProduct true uid newId body now date0 date s).2 !! id = Some d)
  ∧ (createProduct false uid newId body now date0 date s).2 = s
  ∧ status (createProduct false uid newId body now date0 date s).1 = 400.
Proof.
  unfold createProduct, ProductService.createProduct, create. simpl.
  assert (ProductService.likesOr0 (<["userId" := VStr uid]> body)
          = ProductService.likesOr0 body) as Hl.
  { unfold ProductService.likesOr0. by rewrite lookup_insert_ne. }
  split_and!.
  - eexists. split; [done|]. split; [done|].
    assert (∀ stored : Obj, stored !! "userId" = Some (VStr uid) →
              ownedBy stored uid = true) as Hown.
    { intros st Hst. by apply ownedBy_true. }
    split_and!.
    + by do 5 (rewrite lookup_insert_ne by done); rewrite lookup_insert_eq.
    + apply Hown.
      by do 5 (rewrite lookup_insert_ne by done); rewrite lookup_insert_eq.
    + rewrite lookup_insert_ne by done. by rewrite lookup_insert_eq.
    + by rewrite lookup_insert_eq.
    + do 4 (rewrite lookup_insert_ne by done). by rewrite lookup_insert_eq, Hl.
    + intros k H1 H2 H3 H4. by rewrite !lookup_insert_ne.
    + intros Hn Hb. unfold freshProduct, likedByOf, currentLikes. split.
      * do 6 (rewrite lookup_insert_ne by done). by rewrite Hb.
      * do 4 (rewrite lookup_insert_ne by done). rewrite lookup_insert_eq, Hl.
        unfold ProductService.likesOr0. by rewrite Hn.
  - intros Hnew id d Hd. rewrite lookup_insert_ne; [done|]. congruence.
  - done.
  - done.
Qed.

End crud.

(** ** The other queries *)

Section queries.
Import ProductRepository productController.
Implicit Types (d data o p : Obj) (s : Store) (u uid id field value : string).

Lemma elem_of_whereEq field value s id :
  id ∈ Query.whereEq field value s
  ↔ ∃ d, s !! id = Some d ∧ d !! field = Some (VStr value).
Proof.
  unfold Query.whereEq, Query.byId.
  rewrite list_elem_of_filter, merge_sort_Permutation, elem_of_elements, elem_of_dom.
  unfold Query.fieldIs. split.
  - intros [Hf [d Hd]]. exists d. split; [done|]. rewrite Hd in Hf. simpl in Hf.
    destruct (d !! field) as [[]|]; try done.
    apply Is_true_true, bool_decide_eq_true in Hf. by subst.
  - intros (d & Hd & Hv). rewrite Hd. simpl. rewrite Hv. split; [|by eexists].
    apply Is_true_true. by apply bool_decide_eq_true.
Qed.

Lemma elem_of_where_products field value s p :
  p ∈ omap (λ id, getById id s) (Query.whereEq field value s)
  ↔ ∃ id d, s !! id = Some d ∧ d !! field = Some (VStr value) ∧ p = toProduct id d.
Proof.
  rewrite list_elem_of_omap. split.
  - intros (id & (d & Hd & Hv)%elem_of_whereEq & Hp).
    unfold getById in Hp. rewrite Hd in Hp. injection Hp as <-. by exists id, d.
  - intros (id & d & Hd & Hv & ->). exists id. split.
    + apply elem_of_whereEq. by exists d.
    + unfold getById. by rewrite Hd.
Qed.

(** X17. The three equality queries return exactly the matching products:
    [getByUserId], [getProductsByCategory] and [getProductsByCharity] return
    a product if and only if it is built from a stored document whose
    [userId] ([categoryId], [charityId]) is the string asked for. *)
Theorem equality_queries_exact (s : Store) (value : string) (p : Obj) :
  (p ∈ getByUserId value s
   ↔ ∃ id d, s !! id = Some d ∧ d !! "userId" = Some (VStr value) ∧ p = toProduct id d)
  ∧ (p ∈ getProductsByCategory value s
   ↔ ∃ id d, s !! id = Some d ∧ d !! "categoryId" = Some (VStr value) ∧ p = toProduct id d)
  ∧ (p ∈ getProductsByCharity value s
   ↔ ∃ id d, s !! id = Some d ∧ d !! "charityId" = Some (VStr value) ∧ p = toProduct id d).
Proof.
  unfold getByUserId, getProductsByCategory, getProductsByCharity.
  split_and!; apply elem_of_where_products.
Qed.

(** X18. [getAll] returns one product for each stored document, and a
    product is in [getAll] exactly when [getById] returns it for some id;
    the list-all endpoint sends as many views. *)
Theorem getAll_complete (s : Store) (uid : option string) :
  length (getAll s) = size s
  ∧ (∀ p, p ∈ getAll s ↔ ∃ id, getById id s = Some p)
  ∧ status (getAllProducts uid s) = 200
  ∧ length (objects (getAllProducts uid s)) = size s.
Proof.
  unfold getAll. split_and!.
  - by rewrite length_fmap, length_map_to_list.
  - intros p. rewrite list_elem_of_fmap. unfold getById. split.
    + intros ([id d] & -> & Hin%elem_of_map_to_list). exists id. simpl. by rewrite Hin.
    + intros [id Hp]. destruct (s !! id) as [d|] eqn:Hd; [|done].
      injection Hp as <-. exists (id, d). split; [done|]. by apply elem_of_map_to_list.
  - done.
  - unfold getAllProducts, objects, ProductService.getAllProducts, getAll; simpl.
    by rewrite !length_fmap, length_map_to_list.
Qed.

(** X19. The public view is the product without [likedBy] and with the two
    derived fields: its field names are those of the product, less
    [likedBy], plus [likeCount] and [isLikedByUser], and every field other
    than these three has the value it has in the product. *)
Theorem formatProductResponse_fields (product : Obj) (userId : option string) :
  dom (formatProductResponse product userId)
  = (dom product ∖ {["likedBy"]}) ∪ {["likeCount"; "isLikedByUser"]}
  ∧ ∀ k, k ≠ "likedBy" → k ≠ "likeCount" → k ≠ "isLikedByUser" →
      formatProductResponse product userId !! k = product !! k.
Proof.
  split.
  - unfold formatProductResponse. rewrite !dom_insert_L, dom_delete_L.
    apply set_eq. intros k.
    rewrite !elem_of_union, elem_of_difference, !elem_of_singleton. tauto.
  - intros k. apply formatProductResponse_other.
Qed.

End queries.

(** ** The earlier revision against the later one *)

Section revisions.
Import ProductRepository productController.
Implicit Types (d data o p : Obj) (s : Store) (u uid id : string) (now : Z).

(** X20. The earlier [addLike] and the transactional one. They agree on a
    missing product and on a user who is not yet a member. For a member the
    earlier one writes all the same: the members stay as they are, but the
    counter goes up by one. *)
Theorem legacy_addLike_compared (s : Store) (id u : string) (now : Z) :
  (s !! id = None → Legacy.addLike id u now s = (None, s))
  ∧ (∀ data, s !! id = Some data → u ∉ likedByOf data →
       ∃ p s', Legacy.addLike id u now s = (Some p, s')
               ∧ addLike id u now s = (Ok (Some p), s'))
  ∧ (∀ data, s !! id = Some data → u ∈ likedByOf data →
       ∃ data', Legacy.addLike id u now s = (Some (toProduct id data'), <[id := data']> s)
                ∧ likedByOf data' = likedByOf data
                ∧ currentLikes data' = (currentLikes data + 1)%Z
                ∧ addLike id u now s = (Ok (Some (toProduct id data)), s)).
Proof.
  split_and!.
  - intros H. unfold Legacy.addLike. by rewrite H.
  - intros data H Hu. eexists _, _. split.
    + unfold Legacy.addLike, getById. rewrite H; simpl. by rewrite lookup_insert_eq.
    + by rewrite (addLike_new _ _ _ _ _ H Hu).
  - intros data H Hu. exists (liked now u data). split_and!.
    + unfold Legacy.addLike, getById. rewrite H; simpl. by rewrite lookup_insert_eq.
    + unfold liked, updateDoc, likedByOf in *; simpl. rewrite lookup_insert_eq.
      destruct (data !! "likedBy") as [[]|]; simpl; try (by apply not_elem_of_nil in Hu).
      unfold arrayUnion. by rewrite bool_decide_true.
    + apply currentLikes_liked.
    + by apply addLike_member.
Qed.

(** X21. The earlier [removeLike] and the transactional one. They agree on a
    missing product, on a user who is not a member, and on a member when the
    counter is at least 1. For a member the earlier one always subtracts one,
    also from a counter that is 0 or missing. *)
Theorem legacy_removeLike_compared (s : Store) (id u : string) (now : Z) :
  (s !! id = None → Legacy.removeLike id u now s = (None, s))
  ∧ (∀ data, s !! id = Some data →
       (u ∉ likedByOf data) ∨ (1 ≤ currentLikes data)%Z →
       ∃ p s', Legacy.removeLike id u now s = (Some p, s')
               ∧ removeLike id u now s = (Ok (Some p), s'))
  ∧ (∀ data, s !! id = Some data → u ∈ likedByOf data →
       ∃ data', Legacy.removeLike id u now s = (Some (toProduct id data'), <[id := data']> s)
                ∧ likedByOf data' = arrayRemove u (likedByOf data)
                ∧ currentLikes data' = (currentLikes data - 1)%Z).
Proof.
  split_and!.
  - intros H. unfold Legacy.removeLike. by rewrite H.
  - intros data H Hor.
    destruct (decide (u ∈ likedByOf data)) as [Hu|Hu]; eexists _, _.
    + destruct Hor as [?|Hc]; [done|].
      rewrite (removeLike_member _ _ _ _ _ H Hu).
      unfold Legacy.removeLike, getById. rewrite H. cbn -[updateDoc].
      rewrite bool_decide_true by done. cbn -[updateDoc]. rewrite lookup_insert_eq.
      assert (updateDoc now [("likedBy", TArrayRemove u); ("likes", TIncrement (-1));
                             ("updatedAt", TServerTimestamp)] data
              = unliked_member now u data) as ->; [|done].
      unfold unliked_member, updateDoc; simpl. do 2 f_equal.
      unfold currentLikes in *. destruct (data !! "likes") as [[]|]; simpl; try lia.
      f_equal. lia.
    + rewrite (removeLike_other _ _ _ _ _ H Hu).
      unfold Legacy.removeLike, getById. rewrite H. cbn -[updateDoc].
      rewrite bool_decide_false by done. cbn -[updateDoc].
      rewrite lookup_insert_eq. split; reflexivity.
  - intros data H Hu. eexists. split_and!.
    + unfold Legacy.removeLike, getById. rewrite H; simpl.
      rewrite bool_decide_true by done. by rewrite lookup_insert_eq.
    + unfold updateDoc, likedByOf; simpl. rewrite lookup_insert_eq.
      by destruct (data !! "likedBy") as [[]|].
    + unfold updateDoc, currentLikes; simpl.
      rewrite lookup_insert_ne by done. rewrite lookup_insert_eq.
      destruct (data !! "likes") as [[]|]; simpl; lia.
Qed.

(** X22. The earlier read handlers and [formatProductResponse] build the
    same view but for [likedBy], which the earlier ones pass through: for a
    product whose counter is a number or missing and a viewer id that is not
    the empty string, removing [likedBy] from the earlier view gives the
    later one. *)
Theorem legacy_view_compared (product : Obj) (uid : option string) :
  (product !! "likes" = None ∨ ∃ c, product !! "likes" = Some (VNum c)) →
  uid ≠ Some "" →
  Legacy.withLikeStatus product uid !! "likedBy" = product !! "likedBy"
  ∧ delete "likedBy" (Legacy.withLikeStatus product uid)
    = formatProductResponse product uid.
Proof.
  intros Hl Hu. unfold Legacy.withLikeStatus, formatProductResponse. split.
  - by do 2 (rewrite lookup_insert_ne by done).
  - do 2 (rewrite delete_insert_ne by done).
    rewrite (likesOrZero_agree product Hl). f_equal. do 2 f_equal.
    unfold isLikedBy, truthy. destruct uid as [u|]; [|done].
    rewrite bool_decide_false by congruence. done.
Qed.

End revisions.

(** ** The further properties at sample data *)

Section more_samples.
Import ProductRepository productController.

Lemma coat_stored : ({[ "p1" := Demo.coat ]} : Store) !! "p1" = Some Demo.coat.
Proof. reflexivity. Defined.

Lemma stale_stored : ({[ "p1" := Demo.stale ]} : Store) !! "p1" = Some Demo.stale.
Proof. reflexivity. Defined.

Lemma ownedCoat_stored :
  ({[ "p1" := Demo.ownedCoat ]} : Store) !! "p1" = Some Demo.ownedCoat.
Proof. reflexivity. Defined.

Lemma apron_stored : Demo.shop !! "a" = Some (Demo.fresh "apron").
Proof. reflexivity. Defined.

(** X1 at sample data: [u1] likes [coat], which [u2] likes already. *)
Lemma addLike_first_like_witness :
  ∃ data', addLike "p1" "u1" 9 {[ "p1" := Demo.coat ]}
           = (Ok (Some (toProduct "p1" data')), <["p1" := data']> {[ "p1" := Demo.coat ]})
           ∧ data' !! "likedBy" = Some (VArr ["u2"; "u1"])
           ∧ data' !! "likes" = Some (VNum 2).
Proof.
  assert ("u1" ∉ likedByOf Demo.coat) as Hu by by_compute.
  destruct (addLike_first_like {[ "p1" := Demo.coat ]} "p1" "u1" Demo.coat 9 coat_stored Hu)
    as (data' & Hr & Hl & Hc & _).
  exists data'. split_and!; [exact Hr|exact Hl|exact Hc].
Defined.

(** X2 at sample data: [u2] unlikes [coat]. *)
Lemma removeLike_member_effect_witness :
  ∃ data', removeLike "p1" "u2" 9 {[ "p1" := Demo.coat ]}
           = (Ok (Some (toProduct "p1" data')), <["p1" := data']> {[ "p1" := Demo.coat ]})
           ∧ data' !! "likedBy" = Some (VArr [])
           ∧ data' !! "likes" = Some (VNum 0).
Proof.
  assert ("u2" ∈ likedByOf Demo.coat) as Hu by by_compute.
  destruct (removeLike_member_effect {[ "p1" := Demo.coat ]} "p1" "u2" Demo.coat 9 coat_stored Hu)
    as (data' & Hr & Hl & Hc & _).
  exists data'. split_and!; [exact Hr|exact Hl|exact Hc].
Defined.

(** X3 at sample data: [u1] likes and then unlikes [coat]. *)
Lemma like_then_unlike_restores_witness :
  (removeLike "p1" "u1" 8 (addLike "p1" "u1" 7 {[ "p1" := Demo.coat ]}).2).2
  = <["p1" := <["updatedAt" := VTime 8]> Demo.coat]> {[ "p1" := Demo.coat ]}.
Proof.
  apply (like_then_unlike_restores _ "p1" "u1" Demo.coat ["u2"] 1 7 8).
  - reflexivity.
  - reflexivity.
  - by_compute.
  - reflexivity.
  - lia.
Defined.

(** X4 at sample data. *)
Lemma likedBy_stays_duplicate_free_witness :
  map_Forall (λ _ d, NoDup (likedByOf d))
    (run [(Like "a" "u1", 2%Z); (Like "a" "u1", 3%Z); (ChangePoints "a" 4, 4%Z);
          (Unlike "a" "u2", 5%Z)] Demo.shop).
Proof. apply likedBy_stays_duplicate_free. by_compute. Defined.

(** X5 at sample data: product d is never addressed. *)
Lemma operations_keep_products_witness :
  run [(Like "a" "u1", 2%Z); (Unlike "b" "u1", 3%Z); (ChangePoints "c" 4, 4%Z)] Demo.shop
    !! "d" = Demo.shop !! "d".
Proof.
  apply (proj2 (operations_keep_products Demo.shop
    [(Like "a" "u1", 2%Z); (Unlike "b" "u1", 3%Z); (ChangePoints "c" 4, 4%Z)])).
  by_compute.
Defined.

(** X6 at sample data: the counter of [coat] lowered by 5. *)
Lemma changePoints_effect_witness :
  ∃ data', adjustLikes "p1" (-5) 9 {[ "p1" := Demo.coat ]}
           = (Some (toProduct "p1" data'), <["p1" := data']> {[ "p1" := Demo.coat ]})
           ∧ data' !! "likes" = Some (VNum 0).
Proof.
  destruct (proj2 (proj2 (changePoints_effect {[ "p1" := Demo.coat ]} "p1" (-5) 9))
              Demo.coat coat_stored) as (data' & Hr & Hl & _).
  exists data'. split; [exact Hr|exact Hl].
Defined.

(** X7 at sample data: three users like product a of [shop]. *)
Lemma likes_of_distinct_users_witness :
  ∃ data', run (likesBy "a" [("u3", 2%Z); ("u1", 3%Z); ("u2", 4%Z)]) Demo.shop !! "a"
           = Some data'
           ∧ currentLikes data' = 3%Z ∧ likedByOf data' = ["u3"; "u1"; "u2"].
Proof.
  assert (NoDup (likedByOf (Demo.fresh "apron")
                 ++ [("u3", 2%Z); ("u1", 3%Z); ("u2", 4%Z)].*1)) as Hnd by by_compute.
  destruct (likes_of_distinct_users Demo.shop "a" (Demo.fresh "apron")
              [("u3", 2%Z); ("u1", 3%Z); ("u2", 4%Z)] apron_stored Hnd)
    as (data' & Hr & _ & _ & Hf).
  exists data'. split; [exact Hr|]. apply Hf. split; reflexivity.
Defined.


(** X9 at sample data: b is at position 1 of the listing of [likedShop]. *)
Lemma liked_pages_chain_witness :
  ∃ p1 p2, getProductsLikedByUser "u1" (Int 2) None Demo.likedShop = Ok p1
           ∧ getProductsLikedByUser "u1" (Int 5) (Some "b") Demo.likedShop = Ok p2
           ∧ getProductsLikedByUser "u1" (Int 7) None Demo.likedShop = Ok (p1 ++ p2).
Proof.
  assert (Query.ordered "u1" Demo.likedShop !! 1 = Some "b") as Hn
    by (vm_compute; reflexivity).
  assert ("b" ≠ "") as Hb by discriminate.
  destruct (proj2 (liked_pages_chain "u1" Demo.likedShop 1 4 "b") Hn Hb)
    as (p1 & p2 & d & H1 & _ & _ & H2 & H3).
  exists p1, p2. split_and!; [exact H1|exact H2|exact H3].
Defined.

(** X10 at sample data: the listing of [likedShop] for [u1], two at a time,
    and the listing without a user. *)
Lemma liked_listing_views_witness :
  length (objects (getLikedProducts (Some "u1") (Some (Int 2)) None Demo.likedShop)) = 2
  ∧ (Z.of_nat (length (objects (getLikedProducts (Some "u1") (Some (Int 2)) None
                                  Demo.likedShop))) ≤ 2)%Z
  ∧ (∀ o, o ∈ objects (getLikedProducts (Some "u1") (Some (Int 2)) None Demo.likedShop) →
       o !! "isLikedByUser" = Some (VBool true))
  ∧ status (getLikedProducts None (Some (Int 2)) None Demo.likedShop) = 401
  ∧ status (getLikedProducts (Some "u1") (Some (Int (-3))) None Demo.likedShop) = 500.
Proof.
  destruct (liked_listing_views (Some "u1") (Some (Int 2)) None Demo.likedShop)
    as (_ & Hb & Hv & _).
  split_and!.
  - vm_compute. reflexivity.
  - apply (Hb 2%Z); [reflexivity|lia].
  - exact Hv.
  - apply (proj1 (liked_listing_views None (Some (Int 2)) None Demo.likedShop)).
    left. reflexivity.
  - apply (proj2 (proj2 (proj2
      (liked_listing_views (Some "u1") (Some (Int (-3))) None Demo.likedShop))) "u1");
      [reflexivity|discriminate|].
    right. exists (-3)%Z. split; [reflexivity|lia].
Defined.

(** X11 at sample data: [u1] likes [coat] and reads it. *)
Lemma like_response_matches_read_witness :
  ∃ count s' view,
    likeProduct (Some "u1") "p1" 9 {[ "p1" := Demo.coat ]}
    = (success (PObj {[ "likeCount" := count; "isLikedByUser" := VBool true ]})
               "Product liked successfully", s')
    ∧ getProductById (Some "u1") "p1" s'
      = success (PObj view) "Product fetched successfully"
    ∧ view !! "likeCount" = Some count
    ∧ view !! "isLikedByUser" = Some (VBool true).
Proof.
  apply (like_response_matches_read {[ "p1" := Demo.coat ]} "p1" "u1" Demo.coat 9).
  - reflexivity.
  - discriminate.
  - right. exists 1%Z. reflexivity.
Defined.

(** X12 at sample data: [u2] unlikes [coat] and reads it. *)
Lemma unlike_response_matches_read_witness :
  ∃ count s' view,
    unlikeProduct (Some "u2") "p1" 9 {[ "p1" := Demo.coat ]}
    = (success (PObj {[ "likeCount" := count; "isLikedByUser" := VBool false ]})
               "Product unliked successfully", s')
    ∧ getProductById (Some "u2") "p1" s'
      = success (PObj view) "Product fetched successfully"
    ∧ view !! "likeCount" = Some count
    ∧ view !! "isLikedByUser" = Some (VBool false).
Proof.
  apply (unlike_response_matches_read {[ "p1" := Demo.coat ]} "p1" "u2" Demo.coat 9).
  - reflexivity.
  - discriminate.
  - right. exists 1%Z. reflexivity.
Defined.

(** X13 at sample data: product b of [shop] is deleted. *)
Lemma delete_then_gone_witness :
  (delete_ "b" Demo.shop).1 = true
  ∧ (delete_ "b" Demo.shop).2 !! "a" = Demo.shop !! "a".
Proof.
  destruct (delete_then_gone Demo.shop "b" "u1" 1 9) as (H1 & _ & _ & _ & _ & _ & H2).
  split.
  - apply H1. by_compute.
  - apply H2. discriminate.
Defined.


(** X15 at sample data: [u2] is not the owner of [ownedCoat]. *)
Lemma only_owner_writes_witness :
  (deleteProduct "u2" "p1" {[ "p1" := Demo.ownedCoat ]}).2 = {[ "p1" := Demo.ownedCoat ]}
  ∧ status (deleteProduct "u2" "p1" {[ "p1" := Demo.ownedCoat ]}).1 = 403.
Proof.
  destruct (proj1 (proj2 (only_owner_writes {[ "p1" := Demo.ownedCoat ]} "u2" "p1" true ∅ 9))
              Demo.ownedCoat ownedCoat_stored) as (_ & _ & H1 & H2).
  - discriminate.
  - exact (conj H1 H2).
Defined.

(** X16 at sample data: a product is created in [shop] under an unused id. *)
Lemma createProduct_stores_owner_witness :
  (createProduct true "u1" "e" {[ "name" := VStr "belt"; "userId" := VStr "u9" ]} 9 8 8
     Demo.shop).2 !! "a" = Some (Demo.fresh "apron").
Proof.
  apply (proj1 (proj2 (createProduct_stores_owner Demo.shop "u1" "e"
           {[ "name" := VStr "belt"; "userId" := VStr "u9" ]} 9 8 8))).
  - reflexivity.
  - reflexivity.
Defined.

(** X17 at sample data: the products of [u1]. *)
Lemma equality_queries_exact_witness :
  toProduct "p1" Demo.ownedCoat ∈ getByUserId "u1" {[ "p1" := Demo.ownedCoat ]}.
Proof.
  apply (proj1 (equality_queries_exact {[ "p1" := Demo.ownedCoat ]} "u1"
                  (toProduct "p1" Demo.ownedCoat))).
  exists "p1", Demo.ownedCoat. split_and!; reflexivity.
Defined.

(** X18 at sample data: product c of [shop]. *)
Lemma getAll_complete_witness :
  toProduct "c" (Demo.fresh "cap") ∈ getAll Demo.shop.
Proof.
  apply (proj1 (proj2 (getAll_complete Demo.shop None))).
  exists "c". reflexivity.
Defined.

(** X19 at sample data: the name of [coat] in its view. *)
Lemma formatProductResponse_fields_witness :
  formatProductResponse Demo.coat None !! "name" = Some (VStr "coat").
Proof.
  apply (proj2 (formatProductResponse_fields Demo.coat None) "name"); discriminate.
Defined.

(** X20 at sample data: [u2] likes [coat] a second time. *)
Lemma legacy_addLike_compared_witness :
  ∃ data', Legacy.addLike "p1" "u2" 9 {[ "p1" := Demo.coat ]}
           = (Some (toProduct "p1" data'), <["p1" := data']> {[ "p1" := Demo.coat ]})
           ∧ likedByOf data' = ["u2"] ∧ currentLikes data' = 2%Z.
Proof.
  assert ("u2" ∈ likedByOf Demo.coat) as Hu by by_compute.
  destruct (proj2 (proj2 (legacy_addLike_compared {[ "p1" := Demo.coat ]} "p1" "u2" 9))
              Demo.coat coat_stored Hu) as (data' & Hr & Hl & Hc & _).
  exists data'. split_and!; [exact Hr|exact Hl|exact Hc].
Defined.

(** X21 at sample data: [u1] is listed in [stale] while its counter is 0. *)
Lemma legacy_removeLike_compared_witness :
  ∃ data', Legacy.removeLike "p1" "u1" 9 {[ "p1" := Demo.stale ]}
           = (Some (toProduct "p1" data'), <["p1" := data']> {[ "p1" := Demo.stale ]})
           ∧ currentLikes data' = (-1)%Z.
Proof.
  assert ("u1" ∈ likedByOf Demo.stale) as Hu by by_compute.
  destruct (proj2 (proj2 (legacy_removeLike_compared {[ "p1" := Demo.stale ]} "p1" "u1" 9))
              Demo.stale stale_stored Hu) as (data' & Hr & _ & Hc).
  exists data'. split; [exact Hr|exact Hc].
Defined.

(** X22 at sample data: the two views of [coat] for [u2]. *)
Lemma legacy_view_compared_witness :
  delete "likedBy" (Legacy.withLikeStatus Demo.coat (Some "u2"))
  = formatProductResponse Demo.coat (Some "u2").
Proof.
  apply (legacy_view_compared Demo.coat (Some "u2")).
  - right. exists 1%Z. reflexivity.
  - discriminate.
Defined.

(** The query at limit 0: the client sends no limit, and the page holds all
    three products that [u1] likes; after the cursor c it holds the two
    older ones. *)
Lemma limit_zero_is_no_limit :
  match getProductsLikedByUser "u1" (Int 0) None Demo.likedShop with
  | Ok ps => Some (length ps)
  | Throw _ => None
  end = Some 3
  ∧ length (objects (getLikedProducts (Some "u1") (Some (Int 0)) (Some "c")
                       Demo.likedShop)) = 2.
Proof. split; vm_compute; reflexivity. Qed.

(** A negative limit and [NaN] make the query throw. *)
Lemma limit_negative_throws :
  getProductsLikedByUser "u1" (Int (-1)) None Demo.likedShop = Throw "limit is negative"
  ∧ getProductsLikedByUser "u1" NaN None Demo.likedShop
    = Throw "Value for argument limit is not a valid integer".
Proof. split; reflexivity. Qed.

(** [update] reads a dotted key as a field path: the key [a.b] stores the
    map with field [b] under [a], and the key [likes.x] replaces the counter
    of [coat] by a map, after which the counter reads as 0. *)
Lemma update_reads_field_paths :
  (update "p1" {[ "a.b" := VNum 1 ]} 9 {[ "p1" := Demo.coat ]}).2 !! "p1" ≫= (.!! "a")
  = Some (VObj [("b", VNum 1)])
  ∧ (update "p1" {[ "likes.x" := VNum 1 ]} 9 {[ "p1" := Demo.coat ]}).2 !! "p1"
      ≫= (.!! "likes")
    = Some (VObj [("x", VNum 1)])
  ∧ currentLikes <$> (update "p1" {[ "likes.x" := VNum 1 ]} 9 {[ "p1" := Demo.coat ]}).2
                       !! "p1"
    = Some 0%Z.
Proof. split_and!; vm_compute; reflexivity. Qed.

(** [update] refuses a key that is not a field path, and an update in which
    one key is a prefix of another; nothing is written. *)
Lemma update_refuses_bad_keys :
  update "p1" {[ "a" := VNum 1; "a.b" := VNum 2 ]} 9 {[ "p1" := Demo.coat ]}
  = (Throw "Value for argument dataOrField is not a valid update map",
     {[ "p1" := Demo.coat ]})
  ∧ update "p1" {[ "a..b" := VNum 1 ]} 9 {[ "p1" := Demo.coat ]}
    = (Throw "Value for argument dataOrField is not a valid update map",
       {[ "p1" := Demo.coat ]}).
Proof. split; vm_compute; reflexivity. Qed.

End more_samples.
